(** * Span input/output extraction and span categories

    A shallow embedding of the trace-processing code of the dashboard:

    - [extractSpanIO] (the extraction logic of the SpanInputOutput
      component, as replicated in its test file), with the
      filter/sort pipeline that the component runs over a trace;
    - the per-trace category statistics [byCategory] computed by
      [TraceFlyoutContent].

    [extractSpanIO] is embedded twice: as a function on values, and as
    a program on an explicit heap, where what it does to the objects
    it is handed can be stated.

    JavaScript values are modelled by the inductive type [JS.value];
    the attribute bag of a span is a finite map from strings to values. *)

From Stdlib Require Import ZArith Ascii String DecimalString.
From Stdlib Require Import Sorting.Permutation Sorting.Sorted.
From stdpp Require Import gmap strings list.

Local Open Scope string_scope.
Set Warnings "-register-all".

(* ===================================================================== *)
(** ** Completions                                                        *)
(* ===================================================================== *)

(** What running a piece of code ends in: a value, or a thrown error.
    [MalformedInputError] carries the [spanId] of the offending span. *)
Inductive error : Type :=
| MalformedInputError (offending : string)
| TypeError (message : string).

Inductive completion (A : Type) : Type :=
| Normal (a : A)
| Throw (e : error).
Arguments Normal {A} a.
Arguments Throw {A} e.

#[global] Instance completion_ret : MRet completion := fun A a => Normal a.

#[global] Instance completion_bind : MBind completion :=
  fun A B f m =>
    match m with
    | Normal a => f a
    | Throw e => Throw e
    end.

(* ===================================================================== *)
(** ** JavaScript values and the built-ins the code uses                  *)
(* ===================================================================== *)

Module JS.

(** Numbers.  The program never computes with attribute numbers: it
    tests them for truthiness, hands them on, or prints them inside
    JSON text.  The model keeps the integral numbers and [NaN]. *)
Inductive number : Type :=
| NaN
| Num (z : Z).

(** Values an attribute can hold (string, number, boolean, nested
    object or array, null), plus [undefined], the result of reading a
    key that is not there.  An object is the ordered list of its own
    enumerable properties. *)
Inductive value : Type :=
| Undefined
| Null
| Bool (b : bool)
| Number (n : number)
| Str (s : string)
| Array (elems : list value)
| Object (props : list (string * value)).

(** ToBoolean. *)
Definition truthy (v : value) : bool :=
  match v with
  | Undefined | Null => false
  | Bool b => b
  | Number NaN => false
  | Number (Num z) => negb (Z.eqb z 0)
  | Str s => negb (String.eqb s "")
  | Array _ | Object _ => true
  end.

(** [a || b]: the left operand when it is truthy, else the right one. *)
Definition or (a b : value) : value := if truthy a then a else b.

(** The [typeof v === 'object'] test: objects, arrays and [null]. *)
Definition typeof_object (v : value) : bool :=
  match v with
  | Null | Array _ | Object _ => true
  | _ => false
  end.

(** Property read [o[k]] on a plain object used as a dictionary: the
    value stored under [k], and [undefined] when there is none.  (None
    of the keys the code reads names a property that plain objects
    inherit.) *)
Definition get (o : gmap string value) (k : string) : value :=
  match o !! k with
  | Some v => v
  | None => Undefined
  end.

(** *** Strings *)

(** [String.prototype.toLowerCase] on the ASCII letters; any other
    character is kept. *)
Definition lower_char (c : ascii) : ascii :=
  let n := nat_of_ascii c in
  if (Nat.leb 65 n && Nat.leb n 90)%bool then ascii_of_nat (n + 32) else c.

Fixpoint toLowerCase (s : string) : string :=
  match s with
  | EmptyString => EmptyString
  | String c s' => String (lower_char c) (toLowerCase s')
  end.

(** [s.includes(sub)]: [sub] occurs in [s] at some position. *)
Fixpoint includes (s sub : string) : bool :=
  (String.prefix sub s
   || match s with
      | EmptyString => false
      | String _ s' => includes s' sub
      end)%bool.

(** *** JSON.stringify *)

(** Number to text: decimal digits, and [null] for a number that is
    not finite. *)
Definition number_to_json (n : number) : string :=
  match n with
  | NaN => "null"
  | Num z => NilZero.string_of_int (Z.to_int z)
  end.

Definition dquote : ascii := ascii_of_nat 34.

Definition hex_digit (n : nat) : ascii :=
  if Nat.ltb n 10 then ascii_of_nat (48 + n) else ascii_of_nat (87 + n).

(** One character of a quoted JSON string. *)
Definition quote_char (c : ascii) : string :=
  let n := nat_of_ascii c in
  if Nat.eqb n 8 then "\b"
  else if Nat.eqb n 9 then "\t"
  else if Nat.eqb n 10 then "\n"
  else if Nat.eqb n 12 then "\f"
  else if Nat.eqb n 13 then "\r"
  else if Nat.eqb n 34 then String "\" (String dquote EmptyString)
  else if Nat.eqb n 92 then "\\"
  else if Nat.ltb n 32 then
    "\u00" +:+ String (hex_digit (n / 16)) (String (hex_digit (n mod 16)) EmptyString)
  else String c EmptyString.

Fixpoint quote_body (s : string) : string :=
  match s with
  | EmptyString => EmptyString
  | String c s' => quote_char c +:+ quote_body s'
  end.

(** QuoteJSONString. *)
Definition quote (s : string) : string :=
  String dquote (quote_body s +:+ String dquote EmptyString).

Definition newline : string := String (ascii_of_nat 10) EmptyString.

Fixpoint join (sep : string) (parts : list string) : string :=
  match parts with
  | [] => ""
  | [p] => p
  | p :: ps => p +:+ sep +:+ join sep ps
  end.

(** The text of an object or array from the texts of its members:
    [open] and [close] are the brackets, [stepback] the indentation of
    the enclosing level and [indent] that of the members. *)
Definition wrap (open close gap stepback indent : string)
    (partial : list string) : string :=
  match partial with
  | [] => open +:+ close
  | _ =>
    if String.eqb gap "" then open +:+ join "," partial +:+ close
    else open +:+ newline +:+ indent
         +:+ join ("," +:+ newline +:+ indent) partial
         +:+ newline +:+ stepback +:+ close
  end.

(** SerializeJSONProperty: [None] stands for [undefined] (the value has
    no JSON text).  An undefined array element prints as [null]; an
    undefined property is left out. *)
Fixpoint serialize (gap indent : string) (v : value) {struct v} : option string :=
  match v with
  | Undefined => None
  | Null => Some "null"
  | Bool true => Some "true"
  | Bool false => Some "false"
  | Number n => Some (number_to_json n)
  | Str s => Some (quote s)
  | Array elems =>
    let stepback := indent in
    let indent := indent +:+ gap in
    let partial :=
      List.map (fun e => match serialize gap indent e with
                         | Some t => t
                         | None => "null"
                         end) elems in
    Some (wrap "[" "]" gap stepback indent partial)
  | Object props =>
    let stepback := indent in
    let indent := indent +:+ gap in
    let partial :=
      (fix members (ps : list (string * value)) : list string :=
         match ps with
         | [] => []
         | (k, e) :: ps' =>
           match serialize gap indent e with
           | Some t =>
             (quote k +:+ ":" +:+ (if String.eqb gap "" then "" else " ") +:+ t)
               :: members ps'
           | None => members ps'
           end
         end) props in
    Some (wrap "{" "}" gap stepback indent partial)
  end.

Fixpoint spaces (n : nat) : string :=
  match n with
  | O => ""
  | S n' => String " "%char (spaces n')
  end.

(** [JSON.stringify(v, null, space)] for a numeric [space]: the gap is
    [space] blanks, at most ten.  The result is a value: a string, or
    [undefined]. *)
Definition JSON_stringify (v : value) (space : nat) : value :=
  match serialize (spaces (Nat.min 10 space)) "" v with
  | Some t => Str t
  | None => Undefined
  end.

(** *** Array.prototype.sort *)

(** [a - b] on numbers. *)
Definition sub (a b : number) : number :=
  match a, b with
  | Num x, Num y => Num (x - y)
  | _, _ => NaN
  end.

(** SortCompare: the comparator's answer, with [NaN] read as [+0].
    An error thrown by the comparator ends the sort. *)
Definition sort_compare {A} (comparefn : A -> A -> completion number)
    (x y : A) : completion Z :=
  v ← comparefn x y;
  mret (match v with
        | NaN => 0%Z
        | Num z => z
        end).

(** The sort is stable: an element moves behind the elements it
    compares above, and no further. *)
Fixpoint sort_insert {A} (comparefn : A -> A -> completion number)
    (x : A) (l : list A) : completion (list A) :=
  match l with
  | [] => mret [x]
  | y :: l' =>
    v ← sort_compare comparefn x y;
    if (0 <? v)%Z
    then r ← sort_insert comparefn x l'; mret (y :: r)
    else mret (x :: l)
  end.

Fixpoint sort {A} (comparefn : A -> A -> completion number)
    (l : list A) : completion (list A) :=
  match l with
  | [] => mret []
  | x :: l' => r ← sort comparefn l'; sort_insert comparefn x r
  end.

End JS.


(* ===================================================================== *)
(** ** Data model                                                         *)
(* ===================================================================== *)

Inductive Status : Type := OK | ERROR | UNSET.

(** Modelled from the spec: the [Span] type of [@/types], which the
    sources import but which is not among them.  The fields are those
    the code reads or builds in [createSpan]; [attributes] may be
    missing, as the code guards for ([span.attributes || {}],
    [span.attributes?.[...]]). *)
Record Span : Type := mkSpan {
  spanId : string;
  traceId : string;
  parentSpanId : option string;
  name : string;
  startTime : string;
  endTime : string;
  status : Status;
  attributes : option (gmap string JS.value)
}.

Inductive Category : Type := agent | llm | tool | other.

#[global] Instance Category_eq_dec : EqDecision Category.
Proof. solve_decision. Defined.

(** [SpanIOData]: the declared type of [input] and [output] is
    [string | null], but the attribute values are untyped, so the
    fields hold any value; [toolName] and [modelId] are optional. *)
Record SpanIOData : Type := mkSpanIOData {
  span : Span;
  category : Category;
  input : JS.value;
  output : JS.value;
  toolName : JS.value;
  modelId : JS.value
}.

(* ===================================================================== *)
(** ** extractSpanIO                                                      *)
(* ===================================================================== *)

Notation "a '|||' b" := (JS.or a b) (at level 50, left associativity).

(** The local variables [category], [input] and [output], which the
    function assigns block after block. *)
Record locals : Type := mkLocals {
  l_category : Category;
  l_input : JS.value;
  l_output : JS.value
}.

Section Blocks.

Variable attrs : gmap string JS.value.
Variable lname : string.

Notation "'attrs[' k ']'" := (JS.get attrs k) (at level 0, k at level 200).

(** [// Determine category] *)
Definition determine_category : Category :=
  if (JS.includes lname "agent" || JS.truthy attrs["gen_ai.agent.name"])%bool
  then agent
  else if (JS.includes lname "llm" || JS.includes lname "bedrock"
           || JS.includes lname "converse" || JS.truthy attrs["gen_ai.system"])%bool
  then llm
  else if (JS.includes lname "tool" || JS.truthy attrs["gen_ai.tool.name"])%bool
  then tool
  else other.

(** [// LLM spans] *)
Definition llm_spans (st : locals) : locals :=
  if decide (l_category st = llm) then
    {| l_category := l_category st;
       l_input := attrs["gen_ai.prompt"]
                  ||| attrs["gen_ai.prompt.0.content"]
                  ||| attrs["llm.prompts"]
                  ||| attrs["llm.input_messages"]
                  ||| attrs["input.value"]
                  ||| JS.Null;
       l_output := attrs["gen_ai.completion"]
                   ||| attrs["gen_ai.completion.0.content"]
                   ||| attrs["llm.completions"]
                   ||| attrs["llm.output_messages"]
                   ||| attrs["output.value"]
                   ||| JS.Null |}
  else st.

(** [// Tool spans] *)
Definition tool_spans (st : locals) : locals :=
  if decide (l_category st = tool) then
    {| l_category := l_category st;
       l_input := attrs["gen_ai.tool.input"]
                  ||| attrs["tool.input"]
                  ||| attrs["input.value"]
                  ||| attrs["tool.parameters"]
                  ||| JS.Null;
       l_output := attrs["gen_ai.tool.output"]
                   ||| attrs["tool.output"]
                   ||| attrs["output.value"]
                   ||| attrs["tool.result"]
                   ||| JS.Null |}
  else st.

(** [// Agent spans] *)
Definition agent_spans (st : locals) : locals :=
  if decide (l_category st = agent) then
    {| l_category := l_category st;
       l_input := attrs["gen_ai.agent.input"]
                  ||| attrs["agent.input"]
                  ||| attrs["input.value"]
                  ||| attrs["user.message"]
                  ||| JS.Null;
       l_output := attrs["gen_ai.agent.output"]
                   ||| attrs["agent.output"]
                   ||| attrs["output.value"]
                   ||| attrs["assistant.message"]
                   ||| JS.Null |}
  else st.

(** [// Generic fallback] *)
Definition generic_fallback (st : locals) : locals :=
  let st :=
    if negb (JS.truthy (l_input st)) then
      {| l_category := l_category st;
         l_input := attrs["input"] ||| attrs["request"] ||| attrs["message"] ||| JS.Null;
         l_output := l_output st |}
    else st in
  if negb (JS.truthy (l_output st)) then
    {| l_category := l_category st;
       l_input := l_input st;
       l_output := attrs["output"] ||| attrs["response"] ||| attrs["result"] ||| JS.Null |}
  else st.

(** [// Convert objects to JSON string] *)
Definition objects_to_json (st : locals) : locals :=
  let st :=
    if (JS.truthy (l_input st) && JS.typeof_object (l_input st))%bool then
      {| l_category := l_category st;
         l_input := JS.JSON_stringify (l_input st) 2;
         l_output := l_output st |}
    else st in
  if (JS.truthy (l_output st) && JS.typeof_object (l_output st))%bool then
    {| l_category := l_category st;
       l_input := l_input st;
       l_output := JS.JSON_stringify (l_output st) 2 |}
  else st.

(** The locals once the category blocks and the generic fallback have
    run: the values the code has resolved, before any conversion. *)
Definition resolved : locals :=
  let st := {| l_category := determine_category;
               l_input := JS.Null;
               l_output := JS.Null |} in
  let st := llm_spans st in
  let st := tool_spans st in
  let st := agent_spans st in
  generic_fallback st.

End Blocks.

Definition extractSpanIO (span : Span) : SpanIOData :=
  let attrs := default ∅ (attributes span) in
  let name := JS.toLowerCase (name span) in
  let st := resolved attrs name in
  let st := objects_to_json st in
  {| span := span;
     category := l_category st;
     input := l_input st;
     output := l_output st;
     toolName := JS.get attrs "gen_ai.tool.name" ||| JS.get attrs "tool.name";
     modelId := JS.get attrs "gen_ai.request.model"
                ||| JS.get attrs "llm.model_name"
                ||| JS.get attrs "gen_ai.system" |}.

(** [// Helper to create test spans]: the defaults of [createSpan] with
    the two overrides most tests give. *)
Definition createSpan (name : string) (attributes : gmap string JS.value) : Span :=
  {| spanId := "test-span-id";
     traceId := "test-trace-id";
     parentSpanId := None;
     name := name;
     startTime := "2024-01-01T00:00:00Z";
     endTime := "2024-01-01T00:00:01Z";
     status := OK;
     attributes := Some attributes |}.

(* ===================================================================== *)
(** ** Category statistics                                                *)
(* ===================================================================== *)

(** The counters [{ agent, llm, tool, other }]. *)
Module Counts.
Record t : Type := mk { agent : nat; llm : nat; tool : nat; other : nat }.
End Counts.

Definition no_counts : Counts.t :=
  {| Counts.agent := 0; Counts.llm := 0; Counts.tool := 0; Counts.other := 0 |}.

(** [acc[c]++] *)
Definition increment (acc : Counts.t) (c : Category) : Counts.t :=
  match c with
  | agent => {| Counts.agent := S (Counts.agent acc); Counts.llm := Counts.llm acc;
                Counts.tool := Counts.tool acc; Counts.other := Counts.other acc |}
  | llm => {| Counts.agent := Counts.agent acc; Counts.llm := S (Counts.llm acc);
              Counts.tool := Counts.tool acc; Counts.other := Counts.other acc |}
  | tool => {| Counts.agent := Counts.agent acc; Counts.llm := Counts.llm acc;
               Counts.tool := S (Counts.tool acc); Counts.other := Counts.other acc |}
  | other => {| Counts.agent := Counts.agent acc; Counts.llm := Counts.llm acc;
                Counts.tool := Counts.tool acc; Counts.other := S (Counts.other acc) |}
  end.

(** [categoryCounts]: the reduce over extraction results,
    [acc[data.category]++]. *)
Definition categoryCounts (spanIOData : list SpanIOData) : Counts.t :=
  fold_left (fun acc data => increment acc (category data)) spanIOData no_counts.

(** The counter that [spanStats.byCategory] of [TraceFlyoutContent]
    bumps for one span: the body of its reduce callback. *)
Definition byCategory_category (span : Span) : Category :=
  let name := JS.toLowerCase (name span) in
  if (JS.includes name "llm" || JS.includes name "bedrock" || JS.includes name "converse")%bool
  then llm
  else if (JS.includes name "tool"
           || JS.truthy (from_option (fun a => JS.get a "gen_ai.tool.name")
                                     JS.Undefined (attributes span)))%bool
  then tool
  else if JS.includes name "agent"
  then agent
  else other.

(** [spanStats.byCategory]: the reduce over the spans of the trace. *)
Definition byCategory (spans : list Span) : Counts.t :=
  fold_left (fun acc span => increment acc (byCategory_category span)) spans no_counts.

(* ===================================================================== *)
(** ** Dates and the sorted list of extraction results                    *)
(* ===================================================================== *)

Definition digit (c : ascii) : option Z :=
  let n := nat_of_ascii c in
  if (Nat.leb 48 n && Nat.leb n 57)%bool then Some (Z.of_nat (n - 48)) else None.

Fixpoint digits (acc : Z) (s : string) : option Z :=
  match s with
  | EmptyString => Some acc
  | String c s' => d ← digit c; digits (10 * acc + d) s'
  end.

Definition days_in_month (y m : Z) : Z :=
  if (m =? 2)%Z then
    if ((y mod 4 =? 0) && (negb (y mod 100 =? 0) || (y mod 400 =? 0)))%Z%bool
    then 29 else 28
  else if ((m =? 4) || (m =? 6) || (m =? 9) || (m =? 11))%Z%bool then 30
  else 31.

(** Days between 1970-01-01 and the given day of the Gregorian calendar. *)
Definition days_from_civil (y m d : Z) : Z :=
  let y' := (if m <=? 2 then y - 1 else y)%Z in
  let era := (y' / 400)%Z in
  let yoe := (y' - era * 400)%Z in
  let doy := ((153 * (if 2 <? m then m - 3 else m + 9) + 2) / 5 + d - 1)%Z in
  let doe := (yoe * 365 + yoe / 4 - yoe / 100 + doy)%Z in
  (era * 146097 + doe - 719468)%Z.

(** [new Date(s).getTime()] for the one shape of time stamp the spans
    of this repository carry, [YYYY-MM-DDTHH:mm:ssZ]: the milliseconds
    since the epoch.  Any other string is taken as not parseable and
    gives [NaN] (an invalid date). *)
Definition Date_getTime (s : string) : JS.number :=
  let sep i c := bool_decide (String.get i s = Some c) in
  let parsed : option Z :=
    if (Nat.eqb (String.length s) 20
        && sep 4%nat "-"%char && sep 7%nat "-"%char && sep 10%nat "T"%char
        && sep 13%nat ":"%char && sep 16%nat ":"%char && sep 19%nat "Z"%char)%bool
    then
      y ← digits 0 (substring 0 4 s);
      m ← digits 0 (substring 5 2 s);
      d ← digits 0 (substring 8 2 s);
      hh ← digits 0 (substring 11 2 s);
      mm ← digits 0 (substring 14 2 s);
      ss ← digits 0 (substring 17 2 s);
      if ((1 <=? m) && (m <=? 12) && (1 <=? d) && (d <=? days_in_month y m)
          && (hh <=? 23) && (mm <=? 59) && (ss <=? 59))%Z%bool
      then Some ((((days_from_civil y m d * 24 + hh) * 60 + mm) * 60 + ss) * 1000)%Z
      else None
    else None in
  match parsed with
  | Some t => JS.Num t
  | None => JS.NaN
  end.

Section SortedByStartTime.

(** The theorems on the sorted list do not depend on which strings the
    engine can parse: the parser is a variable here. *)
Variable getTime : string -> JS.number.

(** The comparator [(a, b) => new Date(a.span.startTime).getTime() -
    new Date(b.span.startTime).getTime()]: building a date from a
    string and reading its time never throw. *)
Definition byStartTime (a b : SpanIOData) : completion JS.number :=
  mret (JS.sub (getTime (startTime (span a))) (getTime (startTime (span b)))).

(** [spans.map(extractSpanIO).filter(data => data.input || data.output)
    .sort(...)] *)
Definition spanIOData (spans : list Span) : completion (list SpanIOData) :=
  JS.sort byStartTime
    (List.filter (fun data => JS.truthy (input data ||| output data))
       (List.map extractSpanIO spans)).

End SortedByStartTime.

(* ===================================================================== *)
(** ** The documented policy, as tables                                   *)
(* ===================================================================== *)

(** The attribute bag the functions read: [span.attributes || {}]. *)
Definition attrs_of (span : Span) : gmap string JS.value :=
  default ∅ (attributes span).

(** The same span with another attribute bag. *)
Definition with_attributes (span : Span) (a : gmap string JS.value) : Span :=
  {| spanId := spanId span; traceId := traceId span;
     parentSpanId := parentSpanId span; name := name span;
     startTime := startTime span; endTime := endTime span;
     status := status span; attributes := Some a |}.

(** Two readings of "the attribute is there": the key is in the bag,
    and the key holds a truthy value. *)
Definition present (a : gmap string JS.value) (k : string) : bool :=
  bool_decide (is_Some (a !! k)).

Definition holds_truthy (a : gmap string JS.value) (k : string) : bool :=
  JS.truthy (JS.get a k).

(** The classifier policy: rules tried in order, the first that
    matches gives the category, [other] when none does.  A rule is a
    list of name fragments and an attribute key. *)
Definition classifier_rules : list (Category * (list string * string)) :=
  [ (agent, (["agent"], "gen_ai.agent.name"));
    (llm, (["llm"; "bedrock"; "converse"], "gen_ai.system"));
    (tool, (["tool"], "gen_ai.tool.name")) ].

Definition rule_matches (has : gmap string JS.value -> string -> bool)
    (span : Span) (rule : list string * string) : bool :=
  (existsb (JS.includes (JS.toLowerCase (name span))) (fst rule)
   || has (attrs_of span) (snd rule))%bool.

Fixpoint first_match (has : gmap string JS.value -> string -> bool)
    (span : Span) (rules : list (Category * (list string * string))) : Category :=
  match rules with
  | [] => other
  | (c, rule) :: rules' =>
    if rule_matches has span rule then c else first_match has span rules'
  end.

Definition classify (has : gmap string JS.value -> string -> bool)
    (span : Span) : Category :=
  first_match has span classifier_rules.

(** The candidate keys of each category, and the generic ones. *)
Definition input_keys (c : Category) : list string :=
  match c with
  | llm => ["gen_ai.prompt"; "gen_ai.prompt.0.content"; "llm.prompts";
            "llm.input_messages"; "input.value"]
  | tool => ["gen_ai.tool.input"; "tool.input"; "input.value"; "tool.parameters"]
  | agent => ["gen_ai.agent.input"; "agent.input"; "input.value"; "user.message"]
  | other => []
  end.

Definition output_keys (c : Category) : list string :=
  match c with
  | llm => ["gen_ai.completion"; "gen_ai.completion.0.content"; "llm.completions";
            "llm.output_messages"; "output.value"]
  | tool => ["gen_ai.tool.output"; "tool.output"; "output.value"; "tool.result"]
  | agent => ["gen_ai.agent.output"; "agent.output"; "output.value"; "assistant.message"]
  | other => []
  end.

Definition generic_input_keys : list string := ["input"; "request"; "message"].
Definition generic_output_keys : list string := ["output"; "response"; "result"].

(** The value of the first key of [keys] whose value passes [ok], and
    [null] when no key does. *)
Fixpoint first_value (ok : JS.value -> bool) (a : gmap string JS.value)
    (keys : list string) : JS.value :=
  match keys with
  | [] => JS.Null
  | k :: keys' => if ok (JS.get a k) then JS.get a k else first_value ok a keys'
  end.

(** "Present and not null". *)
Definition present_non_null (v : JS.value) : bool :=
  match v with
  | JS.Undefined | JS.Null => false
  | _ => true
  end.

(** What the last block does to a resolved value. *)
Definition to_text (v : JS.value) : JS.value :=
  match v with
  | JS.Array _ | JS.Object _ => JS.JSON_stringify v 2
  | _ => v
  end.

(** The values resolved for a span, before the conversion to text. *)
Definition resolved_input (span : Span) : JS.value :=
  l_input (resolved (attrs_of span) (JS.toLowerCase (name span))).

Definition resolved_output (span : Span) : JS.value :=
  l_output (resolved (attrs_of span) (JS.toLowerCase (name span))).

(** The values the category blocks leave in [input] and [output], just
    before the generic fallback. *)
Definition specific (span : Span) : locals :=
  let a := attrs_of span in
  agent_spans a (tool_spans a (llm_spans a
    {| l_category := determine_category a (JS.toLowerCase (name span));
       l_input := JS.Null; l_output := JS.Null |})).

(** Objects and arrays, the values that are converted to text. *)
Definition structured (v : JS.value) : bool :=
  match v with
  | JS.Array _ | JS.Object _ => true
  | _ => false
  end.

(** The text [JSON.stringify({ role: 'user', content: 'Hello' }, null, 2)]:
    one member per line, two blanks in front. *)
Definition role_user_text : string :=
  let q s := String JS.dquote (s +:+ String JS.dquote "") in
  "{" +:+ JS.newline
  +:+ "  " +:+ q "role" +:+ ": " +:+ q "user" +:+ "," +:+ JS.newline
  +:+ "  " +:+ q "content" +:+ ": " +:+ q "Hello" +:+ JS.newline
  +:+ "}".

(** No key of the list yields a value; no key of the list is there. *)
Definition all_falsy (a : gmap string JS.value) (keys : list string) : Prop :=
  Forall (fun k => JS.truthy (JS.get a k) = false) keys.

Definition all_absent (a : gmap string JS.value) (keys : list string) : Prop :=
  Forall (fun k => a !! k = None) keys.

(** [createSpan] with [spanId], [name], [startTime] and [attributes]
    overridden, as the tests of the sorted list build their spans. *)
Definition createSpanAt (spanId name startTime : string)
    (attributes : gmap string JS.value) : Span :=
  {| spanId := spanId;
     traceId := "test-trace-id";
     parentSpanId := None;
     name := name;
     startTime := startTime;
     endTime := "2024-01-01T00:00:01Z";
     status := OK;
     attributes := Some attributes |}.

(** The results that have an input or an output: the list the sort
    receives. *)
Definition with_input_or_output (spans : list Span) : list SpanIOData :=
  List.filter (fun data => JS.truthy (input data ||| output data))
    (List.map extractSpanIO spans).

(** Every attribute key that [extractSpanIO] reads. *)
Definition documented_keys : list string :=
  ["gen_ai.agent.name"; "gen_ai.system"; "gen_ai.tool.name"]
  ++ input_keys llm ++ output_keys llm
  ++ input_keys tool ++ output_keys tool
  ++ input_keys agent ++ output_keys agent
  ++ generic_input_keys ++ generic_output_keys
  ++ ["tool.name"; "gen_ai.request.model"; "llm.model_name"].

(* ===================================================================== *)
(** ** TraceFlyoutContent: status statistics and expanded spans           *)
(* ===================================================================== *)

(** The counters [{ ok, error, unset }]. *)
Module StatusCounts.
Record t : Type := mk { ok : nat; error : nat; unset : nat }.
End StatusCounts.

(** The callback of the reduce of [spanStats.byStatus]; a status that
    is neither [ERROR] nor [OK] counts as unset. *)
Definition byStatus_step (acc : StatusCounts.t) (span : Span) : StatusCounts.t :=
  match status span with
  | ERROR => {| StatusCounts.ok := StatusCounts.ok acc;
                StatusCounts.error := S (StatusCounts.error acc);
                StatusCounts.unset := StatusCounts.unset acc |}
  | OK => {| StatusCounts.ok := S (StatusCounts.ok acc);
             StatusCounts.error := StatusCounts.error acc;
             StatusCounts.unset := StatusCounts.unset acc |}
  | UNSET => {| StatusCounts.ok := StatusCounts.ok acc;
                StatusCounts.error := StatusCounts.error acc;
                StatusCounts.unset := S (StatusCounts.unset acc) |}
  end.

(** [spanStats.byStatus]: the reduce over the spans of the trace. *)
Definition byStatus (spans : list Span) : StatusCounts.t :=
  fold_left byStatus_step spans
    {| StatusCounts.ok := 0; StatusCounts.error := 0; StatusCounts.unset := 0 |}.

(** [handleToggleExpand]: the updater handed to [setExpandedSpans].  It
    copies the set of expanded span ids, then takes [spanId] out of the
    copy when it is in, and puts it in when it is not. *)
Definition handleToggleExpand (spanId : string) (prev : gset string) : gset string :=
  let next := prev in
  if decide (spanId ∈ next) then next ∖ {[ spanId ]} else {[ spanId ]} ∪ next.

(** How many entries of a list are the given category, or status. *)
Definition count_category (c : Category) (l : list Category) : nat :=
  length (List.filter (fun x => bool_decide (x = c)) l).

#[global] Instance Status_eq_dec : EqDecision Status.
Proof. solve_decision. Defined.

Definition count_status (st : Status) (spans : list Span) : nat :=
  length (List.filter (fun s => bool_decide (status s = st)) spans).

(* ===================================================================== *)
(** ** LatencyHistogram                                                   *)
(* ===================================================================== *)

(** [HistogramBucket]; the component reads [label] and [count] only. *)
Module HistogramBucket.
Record t : Type := mk { label : string; count : Z; min : Z; max : Z }.
End HistogramBucket.

(** [Math.max(...data.map(b => b.count), 1)] *)
Definition maxCount (data : list HistogramBucket.t) : Z :=
  foldr Z.max 1%Z (List.map HistogramBucket.count data).

Definition colors : list string :=
  [ "bg-green-500"; "bg-green-400"; "bg-yellow-400";
    "bg-amber-400"; "bg-orange-500"; "bg-red-500" ].

(** [colors[index] || 'bg-gray-400'] *)
Definition getBarColor (index : nat) : string :=
  match colors !! index with
  | Some c => if String.eqb c "" then "bg-gray-400" else c
  | None => "bg-gray-400"
  end.

(* ===================================================================== *)
(** ** getVersion                                                         *)
(* ===================================================================== *)

(** [v === null] *)
Definition is_null (v : JS.value) : bool :=
  match v with
  | JS.Null => true
  | _ => false
  end.

(** Property read [v.k] on any value, for a key [k] that names no
    built-in property: reading from [null] or [undefined] throws, an
    object gives what it holds under [k], every other value gives
    [undefined]. *)
Definition get_property (v : JS.value) (k : string) : completion JS.value :=
  match v with
  | JS.Undefined | JS.Null => Throw (TypeError "Cannot read properties")
  | JS.Object props =>
    mret (match List.find (fun p => String.eqb (fst p) k) props with
          | Some p => snd p
          | None => JS.Undefined
          end)
  | _ => mret JS.Undefined
  end.

(** [getVersion], with the module variable [cachedVersion] threaded
    through: the function takes its value and returns the result with
    the new value.  [package_json] is what reading and parsing
    [package.json] ends in at the time of the call: the parsed value,
    or a thrown error (no file, no JSON). *)
Definition getVersion (package_json : completion JS.value)
    (cachedVersion : JS.value) : JS.value * JS.value :=
  if negb (is_null cachedVersion) then (cachedVersion, cachedVersion)
  else
    let attempt :=
      packageJson ← package_json;
      version ← get_property packageJson "version";
      mret (version ||| JS.Str "unknown") in
    let cachedVersion :=
      match attempt with
      | Normal v => v
      | Throw _ => JS.Str "unknown"
      end in
    (cachedVersion, cachedVersion).

(* ===================================================================== *)
(** ** Notions used by the properties of the sorted list                  *)
(* ===================================================================== *)

(** The number behind a time: [0] stands in for [NaN], which the
    properties below exclude. *)
Definition number_Z (n : JS.number) : Z :=
  match n with
  | JS.NaN => 0%Z
  | JS.Num z => z
  end.

Definition is_number (n : JS.number) : bool :=
  match n with
  | JS.NaN => false
  | JS.Num _ => true
  end.

(** The start time of a result, in milliseconds. *)
Definition start_ms (getTime : string -> JS.number) (data : SpanIOData) : Z :=
  number_Z (getTime (startTime (span data))).

(** The results of a list that start at the instant [t], in the order
    of the list. *)
Definition starting_at (getTime : string -> JS.number) (t : Z)
    (l : list SpanIOData) : list SpanIOData :=
  List.filter (fun data => (start_ms getTime data =? t)%Z) l.

(** Stable insertion sort on an integer key, the reference the sort of
    the engine is compared with. *)
Fixpoint insert_by {A} (key : A -> Z) (x : A) (l : list A) : list A :=
  match l with
  | [] => [x]
  | y :: l' => if (key y <? key x)%Z then y :: insert_by key x l' else x :: l
  end.

Fixpoint sort_by {A} (key : A -> Z) (l : list A) : list A :=
  match l with
  | [] => []
  | x :: l' => insert_by key x (sort_by key l')
  end.

(** Every start time of the list parses. *)
Definition start_times_parse (getTime : string -> JS.number) (spans : list Span) : Prop :=
  Forall (fun s => is_number (getTime (startTime s)) = true) spans.

(** The span carries no mark of an agent or of a model system: its
    lower-cased name does not contain [agent], and neither
    [gen_ai.agent.name] nor [gen_ai.system] holds a truthy value. *)
Definition no_agent_or_system_mark (span : Span) : Prop :=
  JS.includes (JS.toLowerCase (name span)) "agent" = false
  /\ all_falsy (attrs_of span) ["gen_ai.agent.name"; "gen_ai.system"].

(** The sum of the four counters. *)
Definition total (c : Counts.t) : nat :=
  Counts.agent c + Counts.llm c + Counts.tool c + Counts.other c.

(* ===================================================================== *)
(** ** extractSpanIO on a heap                                            *)
(* ===================================================================== *)

(** To speak of what the function does to the objects it is handed,
    the function is embedded a second time, on an explicit heap: the
    span and its attribute bag are objects behind references, every
    [span.x] and [attrs[k]] is a read of the heap, [{}] and the object
    the function returns are allocations, and a step may throw.  A
    program in this embedding can overwrite or delete any object of
    the heap; whether the code does is what the theorem on it
    settles. *)

Abbreviation loc := positive.

(** A span object: the fields of a span, the attribute bag behind a
    reference when the span has one. *)
Record SpanObject : Type := mkSpanObject {
  o_spanId : string;
  o_traceId : string;
  o_parentSpanId : option string;
  o_name : string;
  o_startTime : string;
  o_endTime : string;
  o_status : Status;
  o_attributes : option loc
}.

(** The object the function returns; [r_span] is a reference to the
    span it was called with. *)
Record ResultObject : Type := mkResultObject {
  r_span : loc;
  r_category : Category;
  r_input : JS.value;
  r_output : JS.value;
  r_toolName : JS.value;
  r_modelId : JS.value
}.

(** Attribute values are JSON data, kept by value. *)
Inductive object : Type :=
| SpanObj (s : SpanObject)
| AttributesObj (a : gmap string JS.value)
| ResultObj (r : ResultObject).

Abbreviation heap := (gmap loc object).

(** Computations that read and change the heap and may throw. *)
Definition M (A : Type) : Type := heap -> completion (A * heap).

Definition ret {A} (a : A) : M A := fun h => Normal (a, h).

Definition bind {A B} (m : M A) (f : A -> M B) : M B :=
  fun h =>
    match m h with
    | Normal (a, h') => f a h'
    | Throw e => Throw e
    end.

Notation "'let!' x ':=' m 'in' k" := (bind m (fun x => k))
  (at level 10, x name, m at level 100, k at level 200).

(** [span.attributes] and [span.name]: reads of the span object. *)
Definition span_attributes (span : loc) : M (option loc) :=
  fun h =>
    match h !! span with
    | Some (SpanObj s) => Normal (o_attributes s, h)
    | _ => Throw (TypeError "not a span")
    end.

Definition span_name (span : loc) : M string :=
  fun h =>
    match h !! span with
    | Some (SpanObj s) => Normal (o_name s, h)
    | _ => Throw (TypeError "not a span")
    end.

(** [attrs[k]]: a read of the attribute object. *)
Definition attr (attrs : loc) (k : string) : M JS.value :=
  fun h =>
    match h !! attrs with
    | Some (AttributesObj a) => Normal (JS.get a k, h)
    | _ => Throw (TypeError "not an attribute bag")
    end.

(** An object literal: a new object at a reference not in use. *)
Definition new_object (o : object) : M loc :=
  fun h => let l := fresh (dom h) in Normal (l, <[l := o]> h).

(** [a || b] on values: [b] is evaluated only when [a] is falsy. *)
Definition or_else (a b : M JS.value) : M JS.value :=
  let! v := a in
  if JS.truthy v then ret v else b.

Notation "a '|||!' b" := (or_else a b) (at level 50, left associativity).

(** [test || a] as a condition: [a] is evaluated only when [test] is
    false. *)
Definition holds_or (test : bool) (a : M JS.value) : M bool :=
  if test then ret true
  else let! v := a in ret (JS.truthy v).

Section HeapBlocks.

Variable attrs : loc.
Variable lname : string.

Notation "'attrs![' k ']'" := (attr attrs k) (at level 0, k at level 200).

(** [// Determine category] *)
Definition determine_category_h : M Category :=
  let! is_agent := holds_or (JS.includes lname "agent") attrs!["gen_ai.agent.name"] in
  if is_agent then ret agent
  else
    let! is_llm := holds_or (JS.includes lname "llm" || JS.includes lname "bedrock"
                             || JS.includes lname "converse")%bool
                            attrs!["gen_ai.system"] in
    if is_llm then ret llm
    else
      let! is_tool := holds_or (JS.includes lname "tool") attrs!["gen_ai.tool.name"] in
      if is_tool then ret tool else ret other.

(** [// LLM spans] *)
Definition llm_spans_h (st : locals) : M locals :=
  if decide (l_category st = llm) then
    let! input := attrs!["gen_ai.prompt"]
                  |||! attrs!["gen_ai.prompt.0.content"]
                  |||! attrs!["llm.prompts"]
                  |||! attrs!["llm.input_messages"]
                  |||! attrs!["input.value"]
                  |||! ret JS.Null in
    let! output := attrs!["gen_ai.completion"]
                   |||! attrs!["gen_ai.completion.0.content"]
                   |||! attrs!["llm.completions"]
                   |||! attrs!["llm.output_messages"]
                   |||! attrs!["output.value"]
                   |||! ret JS.Null in
    ret {| l_category := l_category st; l_input := input; l_output := output |}
  else ret st.

(** [// Tool spans] *)
Definition tool_spans_h (st : locals) : M locals :=
  if decide (l_category st = tool) then
    let! input := attrs!["gen_ai.tool.input"]
                  |||! attrs!["tool.input"]
                  |||! attrs!["input.value"]
                  |||! attrs!["tool.parameters"]
                  |||! ret JS.Null in
    let! output := attrs!["gen_ai.tool.output"]
                   |||! attrs!["tool.output"]
                   |||! attrs!["output.value"]
                   |||! attrs!["tool.result"]
                   |||! ret JS.Null in
    ret {| l_category := l_category st; l_input := input; l_output := output |}
  else ret st.

(** [// Agent spans] *)
Definition agent_spans_h (st : locals) : M locals :=
  if decide (l_category st = agent) then
    let! input := attrs!["gen_ai.agent.input"]
                  |||! attrs!["agent.input"]
                  |||! attrs!["input.value"]
                  |||! attrs!["user.message"]
                  |||! ret JS.Null in
    let! output := attrs!["gen_ai.agent.output"]
                   |||! attrs!["agent.output"]
                   |||! attrs!["output.value"]
                   |||! attrs!["assistant.message"]
                   |||! ret JS.Null in
    ret {| l_category := l_category st; l_input := input; l_output := output |}
  else ret st.

(** [// Generic fallback] *)
Definition generic_fallback_h (st : locals) : M locals :=
  let! st :=
    if negb (JS.truthy (l_input st)) then
      let! input := attrs!["input"] |||! attrs!["request"] |||! attrs!["message"]
                    |||! ret JS.Null in
      ret {| l_category := l_category st; l_input := input; l_output := l_output st |}
    else ret st in
  if negb (JS.truthy (l_output st)) then
    let! output := attrs!["output"] |||! attrs!["response"] |||! attrs!["result"]
                   |||! ret JS.Null in
    ret {| l_category := l_category st; l_input := l_input st; l_output := output |}
  else ret st.

End HeapBlocks.

(** [extractSpanIO]: the statements of the function in their order.
    The conversion to JSON text works on the values it is given and
    touches no object of the heap. *)
Definition extractSpanIO_h (span : loc) : M loc :=
  let! attributes := span_attributes span in
  let! attrs := match attributes with
                | Some a => ret a
                | None => new_object (AttributesObj ∅)
                end in
  let! name := span_name span in
  let name := JS.toLowerCase name in
  let! category := determine_category_h attrs name in
  let st := {| l_category := category; l_input := JS.Null; l_output := JS.Null |} in
  let! st := llm_spans_h attrs st in
  let! st := tool_spans_h attrs st in
  let! st := agent_spans_h attrs st in
  let! st := generic_fallback_h attrs st in
  let st := objects_to_json st in
  let! toolName := attr attrs "gen_ai.tool.name" |||! attr attrs "tool.name" in
  let! modelId := attr attrs "gen_ai.request.model"
                  |||! attr attrs "llm.model_name"
                  |||! attr attrs "gen_ai.system" in
  new_object
    (ResultObj {| r_span := span;
                  r_category := l_category st;
                  r_input := l_input st;
                  r_output := l_output st;
                  r_toolName := toolName;
                  r_modelId := modelId |}).

(** The span that the heap holds behind a reference: the fields of the
    span object, with the attribute bag read through its reference. *)
Definition load_span (h : heap) (l : loc) : option Span :=
  match h !! l with
  | Some (SpanObj o) =>
    let build a :=
      {| spanId := o_spanId o; traceId := o_traceId o;
         parentSpanId := o_parentSpanId o; name := o_name o;
         startTime := o_startTime o; endTime := o_endTime o;
         status := o_status o; attributes := a |} in
    match o_attributes o with
    | None => Some (build None)
    | Some la =>
      match h !! la with
      | Some (AttributesObj a) => Some (build (Some a))
      | _ => None
      end
    end
  | _ => None
  end.

(** The result object for a result value; its [span] is the reference
    the function was called with. *)
Definition result_object (span : loc) (r : SpanIOData) : object :=
  ResultObj {| r_span := span;
               r_category := category r;
               r_input := input r;
               r_output := output r;
               r_toolName := toolName r;
               r_modelId := modelId r |}.

(** A computation that answers [a] and leaves the heap [h] as it is. *)
Definition reads {A} (m : M A) (a : A) (h : heap) : Prop := m h = Normal (a, h).

(** [span.attributes = attrs]: an assignment to a field of the span,
    as an extractor that normalised its argument would make.  The
    function has no such statement; the assignment is here to be
    compared with. *)
Definition set_span_attributes (span : loc) (attrs : loc) : M unit :=
  fun h =>
    match h !! span with
    | Some (SpanObj s) =>
      Normal (tt, <[span := SpanObj {| o_spanId := o_spanId s; o_traceId := o_traceId s;
                                        o_parentSpanId := o_parentSpanId s;
                                        o_name := o_name s;
                                        o_startTime := o_startTime s;
                                        o_endTime := o_endTime s;
                                        o_status := o_status s;
                                        o_attributes := Some attrs |}]> h)
    | _ => Throw (TypeError "not a span")
    end.

(* ===================================================================== *)
(** ** Properties of the built-ins                                        *)
(* ===================================================================== *)

Lemma or_assoc (a b c : JS.value) : (a ||| b) ||| c = a ||| (b ||| c).
Proof.
  unfold JS.or.
  destruct (JS.truthy a) eqn:Ha; [now rewrite Ha|].
  reflexivity.
Qed.

Lemma or_truthy_l (a b : JS.value) : JS.truthy a = true -> a ||| b = a.
Proof. intros H. unfold JS.or. now rewrite H. Qed.

Lemma or_falsy_l (a b : JS.value) : JS.truthy a = false -> a ||| b = b.
Proof. intros H. unfold JS.or. now rewrite H. Qed.

(** A chain [a[k1] || ... || a[kn] || null] is a search along the keys. *)
Lemma first_value_cons (a : gmap string JS.value) (k : string) (ks : list string) :
  first_value JS.truthy a (k :: ks) = JS.get a k ||| first_value JS.truthy a ks.
Proof. reflexivity. Qed.

Lemma first_value_truthy_or_null (a : gmap string JS.value) (ks : list string) :
  JS.truthy (first_value JS.truthy a ks) = false ->
  first_value JS.truthy a ks = JS.Null.
Proof.
  induction ks as [|k ks IH]; simpl; [reflexivity|].
  destruct (JS.truthy (JS.get a k)) eqn:Hk; [congruence|exact IH].
Qed.

Lemma first_value_app (a : gmap string JS.value) (ks1 ks2 : list string) :
  first_value JS.truthy a (ks1 ++ ks2) =
  if JS.truthy (first_value JS.truthy a ks1)
  then first_value JS.truthy a ks1
  else first_value JS.truthy a ks2.
Proof.
  induction ks1 as [|k ks1 IH]; simpl; [reflexivity|].
  destruct (JS.truthy (JS.get a k)) eqn:Hk; [now rewrite Hk|exact IH].
Qed.

(** A search that finds nothing: every key holds a falsy value. *)
Lemma first_value_null_iff (a : gmap string JS.value) (ks : list string) :
  first_value JS.truthy a ks = JS.Null <->
  Forall (fun k => JS.truthy (JS.get a k) = false) ks.
Proof.
  induction ks as [|k ks IH]; simpl.
  - split; [constructor|reflexivity].
  - destruct (JS.truthy (JS.get a k)) eqn:Hk.
    + split.
      * intros H. rewrite H in Hk. discriminate.
      * intros H. inversion H; congruence.
    + rewrite IH. split.
      * intros H. now constructor.
      * intros H. now inversion H.
Qed.

(** Serializing an object or an array always gives a string. *)
Lemma JSON_stringify_structured (v : JS.value) (space : nat) :
  JS.truthy v = true -> JS.typeof_object v = true ->
  exists t, JS.JSON_stringify v space = JS.Str t.
Proof.
  intros Ht Ho. unfold JS.JSON_stringify.
  destruct v; try discriminate; simpl; eauto.
Qed.

(* ===================================================================== *)
(** ** The blocks of extractSpanIO as table lookups                       *)
(* ===================================================================== *)

Ltac chain := repeat rewrite or_assoc; repeat rewrite <- first_value_cons.

Lemma specific_category (span : Span) :
  l_category (specific span) =
  determine_category (attrs_of span) (JS.toLowerCase (name span)).
Proof.
  unfold specific, agent_spans, tool_spans, llm_spans.
  destruct (determine_category _ _); reflexivity.
Qed.

Lemma specific_input (span : Span) :
  l_input (specific span) =
  first_value JS.truthy (attrs_of span) (input_keys (l_category (specific span))).
Proof.
  rewrite specific_category.
  unfold specific, agent_spans, tool_spans, llm_spans.
  destruct (determine_category _ _); simpl; chain; reflexivity.
Qed.

Lemma specific_output (span : Span) :
  l_output (specific span) =
  first_value JS.truthy (attrs_of span) (output_keys (l_category (specific span))).
Proof.
  rewrite specific_category.
  unfold specific, agent_spans, tool_spans, llm_spans.
  destruct (determine_category _ _); simpl; chain; reflexivity.
Qed.

Lemma resolved_specific (span : Span) :
  resolved (attrs_of span) (JS.toLowerCase (name span)) =
  generic_fallback (attrs_of span) (specific span).
Proof. reflexivity. Qed.

Lemma resolved_category (span : Span) :
  l_category (resolved (attrs_of span) (JS.toLowerCase (name span))) =
  determine_category (attrs_of span) (JS.toLowerCase (name span)).
Proof.
  rewrite resolved_specific, <- specific_category.
  unfold generic_fallback.
  repeat match goal with |- context [if ?b then _ else _] => destruct b end;
    reflexivity.
Qed.

Lemma generic_fallback_input (a : gmap string JS.value) (st : locals) :
  l_input (generic_fallback a st) =
  if JS.truthy (l_input st) then l_input st
  else first_value JS.truthy a generic_input_keys.
Proof.
  unfold generic_fallback.
  destruct (JS.truthy (l_input st)) eqn:Hi; simpl;
    match goal with |- context [if ?b then _ else _] => destruct b end;
    simpl; chain; reflexivity.
Qed.

Lemma generic_fallback_output (a : gmap string JS.value) (st : locals) :
  l_output (generic_fallback a st) =
  if JS.truthy (l_output st) then l_output st
  else first_value JS.truthy a generic_output_keys.
Proof.
  unfold generic_fallback.
  destruct (JS.truthy (l_input st)) eqn:Hi; simpl;
    destruct (JS.truthy (l_output st)) eqn:Ho; simpl; chain; reflexivity.
Qed.

Lemma to_text_spec (v : JS.value) :
  to_text v = if (JS.truthy v && JS.typeof_object v)%bool
              then JS.JSON_stringify v 2 else v.
Proof. destruct v; cbn [to_text JS.typeof_object]; rewrite ?andb_false_r; reflexivity. Qed.

(** The last block converts each of the two values, and nothing else. *)
Lemma objects_to_json_spec (st : locals) :
  objects_to_json st
  = {| l_category := l_category st;
       l_input := to_text (l_input st);
       l_output := to_text (l_output st) |}.
Proof.
  destruct st as [c i o]. unfold objects_to_json. rewrite !to_text_spec.
  cbn [l_category l_input l_output].
  destruct (JS.truthy i && JS.typeof_object i)%bool;
    cbn [l_category l_input l_output];
    destruct (JS.truthy o && JS.typeof_object o)%bool; reflexivity.
Qed.

(** The resolved values are searches along the keys of the category
    followed by the generic keys. *)
Lemma resolved_input_table (span : Span) :
  resolved_input span =
  first_value JS.truthy (attrs_of span)
    (input_keys (category (extractSpanIO span)) ++ generic_input_keys).
Proof.
  unfold resolved_input. rewrite resolved_specific, generic_fallback_input.
  rewrite first_value_app, specific_input.
  replace (category (extractSpanIO span)) with (l_category (specific span)).
  - reflexivity.
  - rewrite specific_category, <- resolved_category.
    unfold extractSpanIO. cbn [category]. rewrite objects_to_json_spec. reflexivity.
Qed.

Lemma resolved_output_table (span : Span) :
  resolved_output span =
  first_value JS.truthy (attrs_of span)
    (output_keys (category (extractSpanIO span)) ++ generic_output_keys).
Proof.
  unfold resolved_output. rewrite resolved_specific, generic_fallback_output.
  rewrite first_value_app, specific_output.
  replace (category (extractSpanIO span)) with (l_category (specific span)).
  - reflexivity.
  - rewrite specific_category, <- resolved_category.
    unfold extractSpanIO. cbn [category]. rewrite objects_to_json_spec. reflexivity.
Qed.

Lemma extract_category (span : Span) :
  category (extractSpanIO span) =
  determine_category (attrs_of span) (JS.toLowerCase (name span)).
Proof.
  rewrite <- resolved_category.
  unfold extractSpanIO. cbn [category]. rewrite objects_to_json_spec. reflexivity.
Qed.

Lemma extract_input (span : Span) :
  input (extractSpanIO span) = to_text (resolved_input span).
Proof.
  unfold extractSpanIO. cbn [input]. rewrite objects_to_json_spec. reflexivity.
Qed.

Lemma extract_output (span : Span) :
  output (extractSpanIO span) = to_text (resolved_output span).
Proof.
  unfold extractSpanIO. cbn [output]. rewrite objects_to_json_spec. reflexivity.
Qed.

Lemma extract_toolName (s : Span) :
  toolName (extractSpanIO s)
  = JS.get (attrs_of s) "gen_ai.tool.name" ||| JS.get (attrs_of s) "tool.name".
Proof. reflexivity. Qed.

Lemma extract_modelId (s : Span) :
  modelId (extractSpanIO s)
  = JS.get (attrs_of s) "gen_ai.request.model"
    ||| JS.get (attrs_of s) "llm.model_name"
    ||| JS.get (attrs_of s) "gen_ai.system".
Proof. reflexivity. Qed.

Lemma attrs_of_with_attributes (s : Span) (a : gmap string JS.value) :
  attrs_of (with_attributes s a) = a.
Proof. reflexivity. Qed.

Lemma name_with_attributes (s : Span) (a : gmap string JS.value) :
  name (with_attributes s a) = name s.
Proof. reflexivity. Qed.

(* ===================================================================== *)
(** ** The classifier                                                     *)
(* ===================================================================== *)

(** C1, as stated, fails: with "the attribute is present" read as "the
    key is in the bag", a span named [some-span] whose attribute
    [gen_ai.agent.name] is the empty string should be an [agent] span,
    and the code makes it [other]. *)
Lemma classifier_present_counterexample :
  let s := createSpan "some-span" {[ "gen_ai.agent.name" := JS.Str "" ]} in
  classify present s = agent
  /\ category (extractSpanIO s) = other
  /\ category (extractSpanIO s) <> classify present s.
Proof. vm_compute. repeat split; congruence. Qed.

(** C1, amended: for every span the category is that of the first rule,
    in the order agent, llm, tool, that matches, and [other] when none
    does; a rule matches when the lower-cased name contains one of its
    fragments or its attribute holds a truthy value.  A span named
    [agent-tool] without attributes is an [agent] span. *)
Theorem classifier_first_match :
  (forall span : Span, category (extractSpanIO span) = classify holds_truthy span)
  /\ category (extractSpanIO (createSpan "agent-tool" ∅)) = agent.
Proof.
  split; [|reflexivity].
  intros span. rewrite extract_category.
  unfold classify, classifier_rules, first_match, rule_matches, holds_truthy,
    determine_category; simpl.
  rewrite !orb_false_r.
  repeat match goal with |- context [if ?b then _ else _] => destruct b eqn:? end;
    simpl in *; try reflexivity; try congruence.
  all: repeat match goal with
       | H : (_ || _)%bool = true |- _ => apply orb_true_iff in H; destruct H
       | H : (_ || _)%bool = false |- _ => apply orb_false_iff in H; destruct H
       end; congruence.
Qed.

(* ===================================================================== *)
(** ** The order of the candidate keys                                    *)
(* ===================================================================== *)

(** C2, as stated, fails: in an [llm] span whose [gen_ai.prompt] is the
    empty string and whose [input.value] is ["P2"], the first present,
    non-null key is [gen_ai.prompt], and the code returns ["P2"]. *)
Lemma llm_first_present_counterexample :
  let s := createSpan "llm.call"
             (<["gen_ai.prompt" := JS.Str ""]> {[ "input.value" := JS.Str "P2" ]}) in
  category (extractSpanIO s) = llm
  /\ first_value present_non_null (attrs_of s) (input_keys llm) = JS.Str ""
  /\ input (extractSpanIO s) = JS.Str "P2"
  /\ input (extractSpanIO s) <> first_value present_non_null (attrs_of s) (input_keys llm).
Proof. vm_compute. repeat split; congruence. Qed.

(** C2, amended: for every span classified [llm], when some key of the
    list gen_ai.prompt, gen_ai.prompt.0.content, llm.prompts,
    llm.input_messages, input.value holds a truthy value, the input
    returned is the value of the first such key in that order (its JSON
    text when it is an object or an array); and the same for the output
    over gen_ai.completion, gen_ai.completion.0.content,
    llm.completions, llm.output_messages, output.value.  With
    gen_ai.prompt = "P1" and input.value = "P2" the input is "P1". *)
Theorem llm_first_truthy_key :
  (forall span : Span,
     category (extractSpanIO span) = llm ->
     (JS.truthy (first_value JS.truthy (attrs_of span) (input_keys llm)) = true ->
      input (extractSpanIO span)
      = to_text (first_value JS.truthy (attrs_of span) (input_keys llm)))
     /\ (JS.truthy (first_value JS.truthy (attrs_of span) (output_keys llm)) = true ->
         output (extractSpanIO span)
         = to_text (first_value JS.truthy (attrs_of span) (output_keys llm))))
  /\ input (extractSpanIO
              (createSpan "llm.call"
                 (<["gen_ai.prompt" := JS.Str "P1"]> {[ "input.value" := JS.Str "P2" ]})))
     = JS.Str "P1".
Proof.
  split; [|reflexivity].
  intros span Hc. split; intros Ht.
  - rewrite extract_input, resolved_input_table, Hc, first_value_app, Ht. reflexivity.
  - rewrite extract_output, resolved_output_table, Hc, first_value_app, Ht. reflexivity.
Qed.

Lemma llm_first_truthy_key_witness :
  let s := createSpan "llm.call"
             (<["llm.prompts" := JS.Str "User prompt"]>
                {[ "llm.completions" := JS.Str "Assistant response" ]}) in
  input (extractSpanIO s) = JS.Str "User prompt"
  /\ output (extractSpanIO s) = JS.Str "Assistant response".
Proof.
  intros s.
  destruct (proj1 llm_first_truthy_key s) as [Hin Hout]; [reflexivity|].
  split; [apply Hin|apply Hout]; reflexivity.
Defined.

(* ===================================================================== *)
(** ** The two classifiers                                                *)
(* ===================================================================== *)

(** C3: the category statistics of the flyout do not follow the
    extractor.  For a span named [agent-tool] without attributes the
    extractor says [agent], and [byCategory] counts a [tool]. *)
Theorem byCategory_disagrees_on_agent_tool :
  let s := createSpan "agent-tool" ∅ in
  category (extractSpanIO s) = agent
  /\ byCategory_category s = tool
  /\ categoryCounts (List.map extractSpanIO [s])
     = {| Counts.agent := 1; Counts.llm := 0; Counts.tool := 0; Counts.other := 0 |}
  /\ byCategory [s]
     = {| Counts.agent := 0; Counts.llm := 0; Counts.tool := 1; Counts.other := 0 |}.
Proof. vm_compute. repeat split. Qed.

(* ===================================================================== *)
(** ** Conversion to JSON text                                            *)
(* ===================================================================== *)

(** C4: for every span, a resolved input (or output) that is an object
    or an array is returned as its JSON text with an indentation of two
    blanks, [JSON.stringify(value, null, 2)], which is a string; a
    resolved string is returned as it is.  The object
    [{ role: 'user', content: 'Hello' }] gives the text above. *)
Theorem objects_become_json_text :
  (forall span : Span,
     (structured (resolved_input span) = true ->
      input (extractSpanIO span) = JS.JSON_stringify (resolved_input span) 2
      /\ exists t, input (extractSpanIO span) = JS.Str t)
     /\ (structured (resolved_output span) = true ->
         output (extractSpanIO span) = JS.JSON_stringify (resolved_output span) 2
         /\ exists t, output (extractSpanIO span) = JS.Str t)
     /\ (forall s, resolved_input span = JS.Str s ->
                   input (extractSpanIO span) = JS.Str s)
     /\ (forall s, resolved_output span = JS.Str s ->
                   output (extractSpanIO span) = JS.Str s))
  /\ input (extractSpanIO
              (createSpan "llm.call"
                 {[ "gen_ai.prompt" :=
                      JS.Object [("role", JS.Str "user"); ("content", JS.Str "Hello")] ]}))
     = JS.Str role_user_text.
Proof.
  split; [|vm_compute; reflexivity].
  intros span. repeat split.
  - rewrite extract_input. destruct (resolved_input span); try discriminate; reflexivity.
  - rewrite extract_input.
    destruct (resolved_input span) eqn:E; try discriminate;
      apply (JSON_stringify_structured _ 2); reflexivity.
  - rewrite extract_output. destruct (resolved_output span); try discriminate; reflexivity.
  - rewrite extract_output.
    destruct (resolved_output span) eqn:E; try discriminate;
      apply (JSON_stringify_structured _ 2); reflexivity.
  - intros s Hs. rewrite extract_input, Hs. reflexivity.
  - intros s Hs. rewrite extract_output, Hs. reflexivity.
Qed.

Lemma objects_become_json_text_witness :
  let reply := JS.Object [("role", JS.Str "assistant"); ("content", JS.Str "Hi")] in
  let s := createSpan "llm.call"
             (<["gen_ai.completion" := reply]> {[ "gen_ai.prompt" := JS.Str "Hello" ]}) in
  let s' := createSpan "tool.execute"
              (<["tool.input" := JS.Array [JS.Number (JS.Num 1)]]>
                 {[ "tool.output" := JS.Str "done" ]}) in
  output (extractSpanIO s) = JS.JSON_stringify reply 2
  /\ input (extractSpanIO s) = JS.Str "Hello"
  /\ input (extractSpanIO s') = JS.JSON_stringify (JS.Array [JS.Number (JS.Num 1)]) 2
  /\ output (extractSpanIO s') = JS.Str "done".
Proof.
  intros reply s s'.
  destruct (proj1 objects_become_json_text s) as (_ & Hout & Hin & _).
  destruct (proj1 objects_become_json_text s') as (Hin' & _ & _ & Hout').
  split; [|split; [|split]].
  - apply Hout. reflexivity.
  - apply Hin. reflexivity.
  - apply Hin'. reflexivity.
  - apply Hout'. reflexivity.
Defined.

(* ===================================================================== *)
(** ** Generic fallback                                                   *)
(* ===================================================================== *)

(** C5: for every span of every category, when no key of the category
    yields an input, the input is looked up under [input], [request],
    [message], in this order; the output likewise, and on its own, under
    [output], [response], [result].  A span of category [other] has no
    keys of its own and always goes to the generic keys. *)
Theorem generic_fallback_order (span : Span) :
  (all_falsy (attrs_of span) (input_keys (category (extractSpanIO span))) ->
   resolved_input span = first_value JS.truthy (attrs_of span) generic_input_keys
   /\ input (extractSpanIO span)
      = to_text (first_value JS.truthy (attrs_of span) ["input"; "request"; "message"]))
  /\ (all_falsy (attrs_of span) (output_keys (category (extractSpanIO span))) ->
      resolved_output span = first_value JS.truthy (attrs_of span) generic_output_keys
      /\ output (extractSpanIO span)
         = to_text (first_value JS.truthy (attrs_of span) ["output"; "response"; "result"]))
  /\ (category (extractSpanIO span) = other ->
      input (extractSpanIO span)
      = to_text (first_value JS.truthy (attrs_of span) generic_input_keys)
      /\ output (extractSpanIO span)
         = to_text (first_value JS.truthy (attrs_of span) generic_output_keys)).
Proof.
  assert (Hin : all_falsy (attrs_of span) (input_keys (category (extractSpanIO span))) ->
                resolved_input span
                = first_value JS.truthy (attrs_of span) generic_input_keys).
  { intros H. apply first_value_null_iff in H.
    rewrite resolved_input_table, first_value_app, H. reflexivity. }
  assert (Hout : all_falsy (attrs_of span) (output_keys (category (extractSpanIO span))) ->
                 resolved_output span
                 = first_value JS.truthy (attrs_of span) generic_output_keys).
  { intros H. apply first_value_null_iff in H.
    rewrite resolved_output_table, first_value_app, H. reflexivity. }
  split; [|split].
  - intros H. split; [now apply Hin|].
    rewrite extract_input, (Hin H). reflexivity.
  - intros H. split; [now apply Hout|].
    rewrite extract_output, (Hout H). reflexivity.
  - intros Hc. split.
    + rewrite extract_input, Hin; [reflexivity|]. rewrite Hc. constructor.
    + rewrite extract_output, Hout; [reflexivity|]. rewrite Hc. constructor.
Qed.

Lemma generic_fallback_order_witness :
  let s := createSpan "llm.call"
             (<["request" := JS.Str "request data"]>
                (<["message" := JS.Str "a message"]>
                   {[ "gen_ai.completion" := JS.Str "done" ]})) in
  let s' := createSpan "random-span"
              (<["input" := JS.Str "generic input"]>
                 {[ "result" := JS.Str "a result" ]}) in
  input (extractSpanIO s) = JS.Str "request data"
  /\ input (extractSpanIO s') = JS.Str "generic input"
  /\ output (extractSpanIO s') = JS.Str "a result".
Proof.
  intros s s'.
  destruct (generic_fallback_order s) as (Hin & _ & _).
  destruct (generic_fallback_order s') as (_ & Hout' & Hother').
  split; [|split].
  - apply Hin. repeat constructor.
  - apply Hother'. reflexivity.
  - apply Hout'. repeat constructor.
Defined.

(* ===================================================================== *)
(** ** Missing keys                                                       *)
(* ===================================================================== *)

Lemma all_absent_falsy (a : gmap string JS.value) (keys : list string) :
  all_absent a keys -> all_falsy a keys.
Proof.
  unfold all_absent, all_falsy. intros H.
  induction H as [|k ks Hk _ IH]; constructor; [|exact IH].
  unfold JS.get. now rewrite Hk.
Qed.

Lemma all_absent_sub (a : gmap string JS.value) (keys keys' : list string) :
  Forall (fun k => k ∈ keys') keys -> all_absent a keys' -> all_absent a keys.
Proof.
  unfold all_absent. rewrite !Forall_forall. intros Hsub H k Hk. apply H, Hsub, Hk.
Qed.

Lemma candidate_keys_documented (c : Category) :
  Forall (fun k => k ∈ documented_keys) (input_keys c ++ generic_input_keys)
  /\ Forall (fun k => k ∈ documented_keys) (output_keys c ++ generic_output_keys).
Proof.
  split; destruct c; repeat constructor; apply (bool_decide_unpack _); vm_compute; exact I.
Qed.

Lemma get_absent (a : gmap string JS.value) (keys : list string) (k : string) :
  all_absent a keys -> k ∈ keys -> JS.get a k = JS.Undefined.
Proof.
  unfold all_absent. rewrite Forall_forall. intros H Hk.
  unfold JS.get. now rewrite (H k Hk).
Qed.

(** C6: the extractor is a total function: it gives a result for every
    span, whatever its attributes.  When none of the input keys of the
    span's category and none of the generic input keys is there, the
    input is [null], whatever output keys there are; and the same for
    the output.  When none of the keys the extractor reads is there,
    the category is the one the name alone gives, input and output are
    [null], and tool name and model are undefined.  A span named
    [random-span] with the attributes [{}] yields [other], [null],
    [null]; an [llm] span with only [gen_ai.completion] has an output
    and no input, one with only [gen_ai.prompt] an input and no
    output. *)
Theorem missing_keys_give_null :
  (forall span : Span,
     (all_absent (attrs_of span)
        (input_keys (category (extractSpanIO span)) ++ generic_input_keys) ->
      input (extractSpanIO span) = JS.Null)
     /\ (all_absent (attrs_of span)
           (output_keys (category (extractSpanIO span)) ++ generic_output_keys) ->
         output (extractSpanIO span) = JS.Null)
     /\ (all_absent (attrs_of span) documented_keys ->
         category (extractSpanIO span)
         = category (extractSpanIO (with_attributes span ∅))
         /\ input (extractSpanIO span) = JS.Null
         /\ output (extractSpanIO span) = JS.Null
         /\ toolName (extractSpanIO span) = JS.Undefined
         /\ modelId (extractSpanIO span) = JS.Undefined))
  /\ (let r := extractSpanIO (createSpan "random-span" ∅) in
      category r = other /\ input r = JS.Null /\ output r = JS.Null)
  /\ (let r := extractSpanIO
                 (createSpan "llm.call" {[ "gen_ai.completion" := JS.Str "output only" ]}) in
      input r = JS.Null /\ output r = JS.Str "output only")
  /\ (let r := extractSpanIO
                 (createSpan "llm.call" {[ "gen_ai.prompt" := JS.Str "input only" ]}) in
      input r = JS.Str "input only" /\ output r = JS.Null).
Proof.
  split; [|vm_compute; repeat split].
  intros span.
  assert (Hin : all_absent (attrs_of span)
                  (input_keys (category (extractSpanIO span)) ++ generic_input_keys) ->
                input (extractSpanIO span) = JS.Null).
  { intros H. apply all_absent_falsy, first_value_null_iff in H.
    rewrite extract_input, resolved_input_table, H. reflexivity. }
  assert (Hout : all_absent (attrs_of span)
                   (output_keys (category (extractSpanIO span)) ++ generic_output_keys) ->
                 output (extractSpanIO span) = JS.Null).
  { intros H. apply all_absent_falsy, first_value_null_iff in H.
    rewrite extract_output, resolved_output_table, H. reflexivity. }
  split; [exact Hin|]. split; [exact Hout|].
  intros H.
  assert (Hget : forall k, k ∈ documented_keys -> JS.get (attrs_of span) k = JS.Undefined).
  { intros k. apply get_absent, H. }
  split; [|split; [|split; [|split]]].
  - rewrite !extract_category, attrs_of_with_attributes, name_with_attributes.
    unfold determine_category.
    rewrite !Hget by (apply (bool_decide_unpack _); vm_compute; exact I).
    reflexivity.
  - apply Hin. eapply all_absent_sub; [apply candidate_keys_documented|exact H].
  - apply Hout. eapply all_absent_sub; [apply candidate_keys_documented|exact H].
  - rewrite extract_toolName, !Hget by (apply (bool_decide_unpack _); vm_compute; exact I).
    reflexivity.
  - rewrite extract_modelId, !Hget by (apply (bool_decide_unpack _); vm_compute; exact I).
    reflexivity.
Qed.

Lemma missing_keys_give_null_witness :
  let s := createSpan "tool.execute" {[ "tool.output" := JS.Str "output data" ]} in
  let s' := createSpan "agent.run" {[ "user.message" := JS.Str "Hello" ]} in
  let s'' := createSpan "agent.run" {[ "http.method" := JS.Str "GET" ]} in
  input (extractSpanIO s) = JS.Null
  /\ output (extractSpanIO s') = JS.Null
  /\ category (extractSpanIO s'') = agent
  /\ input (extractSpanIO s'') = JS.Null
  /\ output (extractSpanIO s'') = JS.Null.
Proof.
  intros s s' s''.
  destruct (proj1 missing_keys_give_null s) as (Hin & _ & _).
  destruct (proj1 missing_keys_give_null s') as (_ & Hout' & _).
  destruct (proj1 missing_keys_give_null s'') as (_ & _ & Hall'').
  split; [apply Hin; repeat constructor|].
  split; [apply Hout'; repeat constructor|].
  destruct Hall'' as (Hc & Hi & Ho & _); [repeat constructor|].
  split; [rewrite Hc; reflexivity|]. split; [exact Hi|exact Ho].
Defined.

(* ===================================================================== *)
(** ** Time stamps that do not parse                                      *)
(* ===================================================================== *)

(** A comparator that never throws makes a sort that never throws,
    and the result is a rearrangement of the list. *)
Section SortTotal.

Context {A : Type} (comparefn : A -> A -> completion JS.number).
Hypothesis comparefn_total : forall x y, exists v, comparefn x y = Normal v.

Lemma sort_compare_total (x y : A) :
  exists z, JS.sort_compare comparefn x y = Normal z.
Proof.
  unfold JS.sort_compare. destruct (comparefn_total x y) as [v ->].
  eexists. reflexivity.
Qed.

Lemma sort_insert_total (x : A) (l : list A) :
  exists r, JS.sort_insert comparefn x l = Normal r /\ Permutation r (x :: l).
Proof.
  induction l as [|y l IH]; cbn [JS.sort_insert].
  - exists [x]. split; reflexivity.
  - destruct (sort_compare_total x y) as [z ->]. cbn.
    destruct (0 <? z)%Z.
    + destruct IH as (r & -> & Hr). cbn. exists (y :: r). split; [reflexivity|].
      rewrite Hr. apply perm_swap.
    + exists (x :: y :: l). split; reflexivity.
Qed.

Lemma sort_total (l : list A) :
  exists r, JS.sort comparefn l = Normal r /\ Permutation r l.
Proof.
  induction l as [|x l IH]; cbn [JS.sort].
  - exists []. split; reflexivity.
  - destruct IH as (r & -> & Hr). cbn.
    destruct (sort_insert_total x r) as (r' & -> & Hr').
    exists r'. split; [reflexivity|]. rewrite Hr', Hr. reflexivity.
Qed.

End SortTotal.

(** C7, as stated, fails: a trace whose first span has the start time
    [not-a-timestamp] is extracted, filtered and sorted like any other;
    the result is a list, the offending span in it, and no
    [MalformedInputError] is reported. *)
Lemma malformed_timestamp_counterexample :
  let bad := createSpanAt "1" "llm.call" "not-a-timestamp"
               {[ "gen_ai.prompt" := JS.Str "a" ]} in
  let good := createSpanAt "2" "llm.call" "2024-01-01T00:00:02Z"
                {[ "gen_ai.prompt" := JS.Str "b" ]} in
  Date_getTime (startTime bad) = JS.NaN
  /\ spanIOData Date_getTime [bad; good]
     = Normal [extractSpanIO bad; extractSpanIO good]
  /\ spanIOData Date_getTime [bad; good] <> Throw (MalformedInputError (spanId bad)).
Proof. vm_compute. repeat split. discriminate. Qed.

(** C7, amended: for every list of spans, also one with time stamps
    that do not parse, the extraction, filtering and sorting by start
    time return normally: no error is reported, and the result holds
    exactly the extraction results that have an input or an output.  A
    start time that does not parse makes the comparator answer [NaN],
    which the sort reads as "equal". *)
Theorem spanIOData_never_throws (getTime : string -> JS.number) (spans : list Span) :
  (exists l, spanIOData getTime spans = Normal l
             /\ Permutation l (with_input_or_output spans))
  /\ (forall e, spanIOData getTime spans <> Throw e)
  /\ (forall a b,
        getTime (startTime (span a)) = JS.NaN \/ getTime (startTime (span b)) = JS.NaN ->
        JS.sort_compare (byStartTime getTime) a b = Normal 0%Z).
Proof.
  assert (Hl : exists l, spanIOData getTime spans = Normal l
                         /\ Permutation l (with_input_or_output spans)).
  { apply sort_total. intros x y. eexists. reflexivity. }
  split; [exact Hl|]. split.
  - intros e He. destruct Hl as (l & Hl & _). congruence.
  - intros a b H. unfold JS.sort_compare, byStartTime, JS.sub. cbn.
    destruct H as [H|H]; rewrite H; [reflexivity|].
    destruct (getTime (startTime (span a))); reflexivity.
Qed.

Lemma spanIOData_never_throws_witness :
  let bad := extractSpanIO (createSpanAt "1" "llm.call" "not-a-timestamp" ∅) in
  let good := extractSpanIO (createSpanAt "2" "llm.call" "2024-01-01T00:00:02Z" ∅) in
  JS.sort_compare (byStartTime Date_getTime) bad good = Normal 0%Z.
Proof.
  intros bad good.
  apply (proj2 (proj2 (spanIOData_never_throws Date_getTime []))).
  left. reflexivity.
Defined.

(* ===================================================================== *)
(** ** Purity                                                             *)
(* ===================================================================== *)

(** The category, input, output, tool name and model of a result
    depend on nothing but the lower-cased name and the attributes. *)
Lemma extractSpanIO_reads_name_and_attributes (s1 s2 : Span) :
  JS.toLowerCase (name s1) = JS.toLowerCase (name s2) ->
  attrs_of s1 = attrs_of s2 ->
  category (extractSpanIO s1) = category (extractSpanIO s2)
  /\ input (extractSpanIO s1) = input (extractSpanIO s2)
  /\ output (extractSpanIO s1) = output (extractSpanIO s2)
  /\ toolName (extractSpanIO s1) = toolName (extractSpanIO s2)
  /\ modelId (extractSpanIO s1) = modelId (extractSpanIO s2).
Proof.
  intros Hn Ha.
  rewrite !extract_category, !extract_input, !extract_output, !extract_toolName, !extract_modelId.
  unfold resolved_input, resolved_output. rewrite Hn, Ha.
  split; [|split; [|split; [|split]]]; reflexivity.
Qed.

(** *** Reads leave the heap alone *)

Lemma reads_ret {A} (a : A) (h : heap) : reads (ret a) a h.
Proof. reflexivity. Qed.

Lemma bind_reads {A B} (m : M A) (f : A -> M B) (a : A) (h : heap) :
  reads m a h -> bind m f h = f a h.
Proof. unfold reads, bind. now intros ->. Qed.

Lemma reads_bind {A B} (m : M A) (f : A -> M B) (a : A) (b : B) (h : heap) :
  reads m a h -> reads (f a) b h -> reads (bind m f) b h.
Proof. intros Hm Hf. unfold reads. now rewrite (bind_reads m f a h Hm). Qed.

Lemma reads_attr (h : heap) (la : loc) (a : gmap string JS.value) (k : string) :
  h !! la = Some (AttributesObj a) -> reads (attr la k) (JS.get a k) h.
Proof. intros H. unfold reads, attr. now rewrite H. Qed.

Lemma reads_or_else (m1 m2 : M JS.value) (v1 v2 : JS.value) (h : heap) :
  reads m1 v1 h -> reads m2 v2 h -> reads (m1 |||! m2) (v1 ||| v2) h.
Proof.
  intros H1 H2. unfold or_else, JS.or. eapply reads_bind; [exact H1|].
  destruct (JS.truthy v1); [apply reads_ret|exact H2].
Qed.

Lemma reads_holds_or (test : bool) (m : M JS.value) (v : JS.value) (h : heap) :
  reads m v h -> reads (holds_or test m) (test || JS.truthy v)%bool h.
Proof.
  intros H. unfold holds_or. destruct test; [apply reads_ret|].
  eapply reads_bind; [exact H|apply reads_ret].
Qed.

Ltac solve_reads :=
  repeat first [ apply reads_ret
               | eapply reads_attr; eassumption
               | eapply reads_or_else
               | eapply reads_holds_or ].

Section ReadsBlocks.

Variables (h : heap) (la : loc) (a : gmap string JS.value).
Hypothesis bag : h !! la = Some (AttributesObj a).

Lemma reads_determine_category (lname : string) :
  reads (determine_category_h la lname) (determine_category a lname) h.
Proof using bag.
  unfold determine_category_h, determine_category.
  eapply reads_bind; [solve_reads|].
  destruct (_ || _)%bool; [apply reads_ret|].
  eapply reads_bind; [solve_reads|].
  destruct (_ || _)%bool; [apply reads_ret|].
  eapply reads_bind; [solve_reads|].
  destruct (_ || _)%bool; apply reads_ret.
Qed.

Lemma reads_llm_spans (st : locals) : reads (llm_spans_h la st) (llm_spans a st) h.
Proof using bag.
  unfold llm_spans_h, llm_spans. destruct (decide _); [|apply reads_ret].
  eapply reads_bind; [solve_reads|].
  eapply reads_bind; [solve_reads|]. apply reads_ret.
Qed.

Lemma reads_tool_spans (st : locals) : reads (tool_spans_h la st) (tool_spans a st) h.
Proof using bag.
  unfold tool_spans_h, tool_spans. destruct (decide _); [|apply reads_ret].
  eapply reads_bind; [solve_reads|].
  eapply reads_bind; [solve_reads|]. apply reads_ret.
Qed.

Lemma reads_agent_spans (st : locals) : reads (agent_spans_h la st) (agent_spans a st) h.
Proof using bag.
  unfold agent_spans_h, agent_spans. destruct (decide _); [|apply reads_ret].
  eapply reads_bind; [solve_reads|].
  eapply reads_bind; [solve_reads|]. apply reads_ret.
Qed.

Lemma reads_generic_fallback (st : locals) :
  reads (generic_fallback_h la st) (generic_fallback a st) h.
Proof using bag.
  unfold generic_fallback_h, generic_fallback.
  destruct (negb (JS.truthy (l_input st))).
  - eapply reads_bind.
    + eapply reads_bind; [solve_reads|apply reads_ret].
    + cbn [l_output l_input l_category].
      destruct (negb (JS.truthy (l_output st))); [|apply reads_ret].
      eapply reads_bind; [solve_reads|apply reads_ret].
  - eapply reads_bind; [apply reads_ret|].
    destruct (negb (JS.truthy (l_output st))); [|apply reads_ret].
    eapply reads_bind; [solve_reads|apply reads_ret].
Qed.

End ReadsBlocks.

(** From the reading of the name on, the function on the heap computes
    what the function on values computes, and changes nothing. *)
Lemma reads_body (h : heap) (la : loc) (a : gmap string JS.value)
    (span : loc) (s : Span) :
  h !! la = Some (AttributesObj a) ->
  reads (span_name span) (name s) h ->
  attrs_of s = a ->
  (let! name := span_name span in
   let! category := determine_category_h la (JS.toLowerCase name) in
   let! st := llm_spans_h la {| l_category := category;
                                l_input := JS.Null; l_output := JS.Null |} in
   let! st := tool_spans_h la st in
   let! st := agent_spans_h la st in
   let! st := generic_fallback_h la st in
   let! toolName := attr la "gen_ai.tool.name" |||! attr la "tool.name" in
   let! modelId := attr la "gen_ai.request.model"
                   |||! attr la "llm.model_name"
                   |||! attr la "gen_ai.system" in
   new_object
     (ResultObj {| r_span := span;
                   r_category := l_category (objects_to_json st);
                   r_input := l_input (objects_to_json st);
                   r_output := l_output (objects_to_json st);
                   r_toolName := toolName;
                   r_modelId := modelId |})) h
  = new_object (result_object span (extractSpanIO s)) h.
Proof.
  intros bag Hname Ha.
  rewrite (bind_reads _ _ _ _ Hname).
  rewrite (bind_reads _ _ _ _ (reads_determine_category h la a bag _)).
  rewrite (bind_reads _ _ _ _ (reads_llm_spans h la a bag _)).
  rewrite (bind_reads _ _ _ _ (reads_tool_spans h la a bag _)).
  rewrite (bind_reads _ _ _ _ (reads_agent_spans h la a bag _)).
  rewrite (bind_reads _ _ _ _ (reads_generic_fallback h la a bag _)).
  rewrite (bind_reads _ _ (JS.get a "gen_ai.tool.name" ||| JS.get a "tool.name") h)
    by solve_reads.
  rewrite (bind_reads _ _ (JS.get a "gen_ai.request.model" ||| JS.get a "llm.model_name"
                           ||| JS.get a "gen_ai.system") h)
    by solve_reads.
  subst a. unfold result_object, extractSpanIO, resolved, attrs_of.
  cbn [category input output toolName modelId]. reflexivity.
Qed.


(** *** One run of the function *)

Lemma load_span_mono (h h' : heap) (l : loc) (s : Span) :
  h ⊆ h' -> load_span h l = Some s -> load_span h' l = Some s.
Proof.
  intros Hsub. unfold load_span.
  destruct (h !! l) as [[o|a|r]|] eqn:Hl; try discriminate.
  rewrite (lookup_weaken _ _ _ _ Hl Hsub).
  destruct (o_attributes o) as [la|]; [|auto].
  destruct (h !! la) as [[o'|a|r]|] eqn:Hla; try discriminate.
  now rewrite (lookup_weaken _ _ _ _ Hla Hsub).
Qed.

Lemma fresh_unused (h : heap) : h !! fresh (dom h) = None.
Proof. apply not_elem_of_dom, is_fresh. Qed.

Lemma new_object_run (o : object) (h : heap) :
  new_object o h = Normal (fresh (dom h), <[fresh (dom h) := o]> h)
  /\ h ⊆ <[fresh (dom h) := o]> h.
Proof. split; [reflexivity|]. apply insert_subseteq, fresh_unused. Qed.

Lemma extractSpanIO_h_run (h : heap) (span : loc) (s : Span) :
  load_span h span = Some s ->
  exists (r : loc) (h' : heap),
    extractSpanIO_h span h = Normal (r, h')
    /\ h ⊆ h'
    /\ h !! r = None
    /\ h' !! r = Some (result_object span (extractSpanIO s)).
Proof.
  intros Hs. unfold load_span in Hs.
  destruct (h !! span) as [[o|?|?]|] eqn:Hspan; try discriminate.
  unfold extractSpanIO_h.
  destruct (o_attributes o) as [la|] eqn:Hattrs.
  - destruct (h !! la) as [[?|a|?]|] eqn:Hbag; try discriminate.
    assert (Hname : name s = o_name o) by (injection Hs as <-; reflexivity).
    assert (Ha : attrs_of s = a) by (injection Hs as <-; reflexivity).
    rewrite (bind_reads _ _ (Some la) h)
      by (unfold reads, span_attributes; now rewrite Hspan, Hattrs).
    rewrite (bind_reads _ _ la h) by apply reads_ret. cbn beta.
    rewrite (reads_body h la a span s Hbag);
      [|unfold reads, span_name; now rewrite Hspan, Hname|exact Ha].
    destruct (new_object_run (result_object span (extractSpanIO s)) h) as [-> Hsub].
    eexists _, _. split; [reflexivity|]. split; [exact Hsub|].
    split; [apply fresh_unused|apply lookup_insert_eq].
  - assert (Hname : name s = o_name o) by (injection Hs as <-; reflexivity).
    assert (Ha : attrs_of s = ∅) by (injection Hs as <-; reflexivity).
    rewrite (bind_reads _ _ None h)
      by (unfold reads, span_attributes; now rewrite Hspan, Hattrs).
    destruct (new_object_run (AttributesObj ∅) h) as [Hnew Hsub].
    set (la := fresh (dom h)) in *. set (h1 := <[la := AttributesObj ∅]> h) in *.
    unfold bind at 1. rewrite Hnew. cbn beta iota.
    assert (Hspan1 : h1 !! span = Some (SpanObj o))
      by exact (lookup_weaken _ _ _ _ Hspan Hsub).
    rewrite (reads_body h1 la ∅ span s (lookup_insert_eq _ _ _));
      [|unfold reads, span_name; now rewrite Hspan1, Hname|exact Ha].
    destruct (new_object_run (result_object span (extractSpanIO s)) h1) as [-> Hsub1].
    eexists _, _. split; [reflexivity|]. split; [now transitivity h1|].
    split; [|apply lookup_insert_eq].
    pose proof (fresh_unused h1) as Hr.
    destruct (h !! fresh (dom h1)) eqn:E; [|reflexivity].
    rewrite (lookup_weaken _ _ _ _ E Hsub) in Hr. discriminate.
Qed.

(** An assignment to [span.attributes], in contrast, shows in the
    heap: the span behind the reference is no longer the span that was
    handed over. *)
Lemma set_span_attributes_shows (h : heap) (span la : loc) (s : Span) :
  load_span h span = Some s ->
  attributes s = None ->
  h !! la = Some (AttributesObj ∅) ->
  span <> la ->
  exists h', set_span_attributes span la h = Normal (tt, h')
             /\ load_span h' span <> Some s
             /\ ~ h ⊆ h'.
Proof.
  intros Hs Hnone Hbag Hne. unfold load_span in Hs. unfold set_span_attributes.
  destruct (h !! span) as [[o|?|?]|] eqn:Hspan; try discriminate.
  eexists. split; [reflexivity|]. split.
  - unfold load_span. rewrite lookup_insert_eq. cbn [o_attributes].
    rewrite lookup_insert_ne by exact Hne. rewrite Hbag.
    intros E. injection E as <-. discriminate Hnone.
  - intros Hsub. pose proof (lookup_weaken _ _ _ _ Hspan Hsub) as E.
    rewrite lookup_insert_eq in E. injection E as E.
    destruct (o_attributes o) as [la'|] eqn:Ha.
    + destruct (h !! la') as [[?|?|?]|]; try discriminate.
      injection Hs as <-. discriminate Hnone.
    + rewrite <- E in Ha. discriminate Ha.
Qed.

(** C8: run on a heap that holds a span behind a reference, the
    extractor returns normally and has no effect but to allocate: every
    object that was on the heap is still there and as it was, so the
    span and its attribute bag are not modified; the result is a new
    object whose [span] field is the very reference the function was
    given, and whose other fields are those the function on values
    computes for the span.  The invocation leaves nothing behind that
    a later one could see: a second invocation, on the heap the first
    has left, returns an object with the same fields, and so does an
    invocation on any other heap that holds an equal span. *)
Theorem extractSpanIO_pure (h : heap) (span : loc) (s : Span) :
  load_span h span = Some s ->
  exists (r : loc) (h' : heap),
    extractSpanIO_h span h = Normal (r, h')
    /\ h ⊆ h'
    /\ load_span h' span = Some s
    /\ h !! r = None
    /\ h' !! r = Some (result_object span (extractSpanIO s))
    /\ (exists (r2 : loc) (h2 : heap),
          extractSpanIO_h span h' = Normal (r2, h2)
          /\ h' ⊆ h2
          /\ h2 !! r2 = Some (result_object span (extractSpanIO s)))
    /\ (forall (h0 : heap) (span0 : loc),
          load_span h0 span0 = Some s ->
          exists (r0 : loc) (h0' : heap),
            extractSpanIO_h span0 h0 = Normal (r0, h0')
            /\ h0' !! r0 = Some (result_object span0 (extractSpanIO s))).
Proof.
  intros Hs.
  destruct (extractSpanIO_h_run h span s Hs) as (r & h' & Hrun & Hsub & Hfresh & Hr).
  pose proof (load_span_mono h h' span s Hsub Hs) as Hs'.
  exists r, h'. repeat (split; [assumption|]). split.
  - destruct (extractSpanIO_h_run h' span s Hs') as (r2 & h2 & Hrun2 & Hsub2 & _ & Hr2).
    exists r2, h2. auto.
  - intros h0 span0 Hs0.
    destruct (extractSpanIO_h_run h0 span0 s Hs0) as (r0 & h0' & Hrun0 & _ & _ & Hr0).
    exists r0, h0'. auto.
Qed.

Lemma extractSpanIO_pure_witness :
  let bag : gmap string JS.value := {[ "gen_ai.prompt" := JS.Str "a" ]} in
  let h : heap :=
    <[1%positive :=
        SpanObj {| o_spanId := "1"; o_traceId := "test-trace-id";
                   o_parentSpanId := None; o_name := "LLM.call";
                   o_startTime := "2024-01-01T00:00:01Z";
                   o_endTime := "2024-01-01T00:00:01Z";
                   o_status := OK; o_attributes := Some 2%positive |}]>
      {[ 2%positive := AttributesObj bag ]} in
  let s := createSpanAt "1" "LLM.call" "2024-01-01T00:00:01Z" bag in
  exists (r : loc) (h' : heap),
    extractSpanIO_h 1%positive h = Normal (r, h')
    /\ h ⊆ h'
    /\ h' !! r = Some (result_object 1%positive (extractSpanIO s)).
Proof.
  intros bag h s.
  destruct (extractSpanIO_pure h 1%positive s) as (r & h' & Hrun & Hsub & _ & _ & Hr & _).
  - vm_compute. reflexivity.
  - exists r, h'. split; [exact Hrun|]. split; [exact Hsub|exact Hr].
Defined.

(* ===================================================================== *)
(** ** Falsy attribute values                                             *)
(* ===================================================================== *)

Lemma truthy_get_falsy_insert (a : gmap string JS.value) (k k' : string) (v : JS.value) :
  JS.truthy v = false ->
  JS.truthy (JS.get (<[k:=v]> a) k') = JS.truthy (JS.get (delete k a) k').
Proof.
  intros Hv. unfold JS.get.
  destruct (decide (k = k')) as [->|Hne].
  - now rewrite lookup_insert_eq, lookup_delete_eq.
  - now rewrite lookup_insert_ne, lookup_delete_ne.
Qed.

Lemma first_value_falsy_insert (a : gmap string JS.value) (k : string) (v : JS.value)
    (keys : list string) :
  JS.truthy v = false ->
  first_value JS.truthy (<[k:=v]> a) keys = first_value JS.truthy (delete k a) keys.
Proof.
  intros Hv. induction keys as [|k' keys IH]; [cbn [first_value]; reflexivity|].
  rewrite !first_value_cons, IH.
  unfold JS.or. rewrite (truthy_get_falsy_insert a k k' v Hv).
  destruct (JS.truthy (JS.get (delete k a) k')) eqn:Ht; [|reflexivity].
  unfold JS.get in *.
  destruct (decide (k = k')) as [->|Hne].
  - rewrite lookup_delete_eq in Ht. discriminate.
  - now rewrite lookup_insert_ne, lookup_delete_ne.
Qed.

Lemma determine_category_falsy_insert (a : gmap string JS.value) (k : string)
    (v : JS.value) (lname : string) :
  JS.truthy v = false ->
  determine_category (<[k:=v]> a) lname = determine_category (delete k a) lname.
Proof.
  intros Hv. unfold determine_category.
  now rewrite !(truthy_get_falsy_insert a k _ v Hv).
Qed.

(** C9: for every span, an attribute that holds a falsy value (the
    empty string, 0, false, and also null or NaN) counts for
    [extractSpanIO] as an attribute that is not there: the category,
    the input and the output are those of the span without the
    attribute.  So [gen_ai.agent.name = ""] does not make a span an
    [agent] span, and an empty [gen_ai.prompt] is passed over for the
    next key of the chain. *)
Theorem falsy_attribute_as_absent :
  (forall (span : Span) (a : gmap string JS.value) (k : string) (v : JS.value),
     JS.truthy v = false ->
     let present := extractSpanIO (with_attributes span (<[k:=v]> a)) in
     let absent := extractSpanIO (with_attributes span (delete k a)) in
     category present = category absent
     /\ input present = input absent
     /\ output present = output absent)
  /\ JS.truthy (JS.Str "") = false
  /\ JS.truthy (JS.Number (JS.Num 0)) = false
  /\ JS.truthy (JS.Bool false) = false
  /\ category (extractSpanIO
                 (createSpan "some-span" {[ "gen_ai.agent.name" := JS.Str "" ]})) = other
  /\ input (extractSpanIO
              (createSpan "llm.call"
                 (<["gen_ai.prompt" := JS.Number (JS.Num 0)]>
                    {[ "input.value" := JS.Str "P2" ]}))) = JS.Str "P2".
Proof.
  split; [|vm_compute; repeat split].
  intros span a k v Hv present absent.
  assert (Hc : category present = category absent).
  { unfold present, absent.
    rewrite !extract_category, !attrs_of_with_attributes, !name_with_attributes.
    apply determine_category_falsy_insert, Hv. }
  split; [exact Hc|]. unfold present, absent in *. split.
  - rewrite !extract_input, !resolved_input_table, Hc, !attrs_of_with_attributes.
    now rewrite first_value_falsy_insert.
  - rewrite !extract_output, !resolved_output_table, Hc, !attrs_of_with_attributes.
    now rewrite first_value_falsy_insert.
Qed.

Lemma falsy_attribute_as_absent_witness :
  let a : gmap string JS.value := {[ "input.value" := JS.Str "P2" ]} in
  let s := createSpan "llm.call" a in
  input (extractSpanIO (with_attributes s (<["gen_ai.prompt" := JS.Bool false]> a)))
  = input (extractSpanIO (with_attributes s (delete "gen_ai.prompt" a))).
Proof.
  intros a s.
  apply (proj1 falsy_attribute_as_absent s a "gen_ai.prompt" (JS.Bool false)).
  reflexivity.
Defined.

(* ===================================================================== *)
(** ** Scalars that are not strings                                       *)
(* ===================================================================== *)

(** C10: for every span, a resolved input or output that is a number or
    a boolean is returned as that number or boolean, not as a string:
    only objects and arrays are converted to text, every other resolved
    value is returned as it is.  An [llm] span with [input.value = 42]
    has the number 42 as its input. *)
Theorem truthy_scalars_unchanged :
  (forall span : Span,
     (forall n, resolved_input span = JS.Number n ->
                input (extractSpanIO span) = JS.Number n)
     /\ (forall b, resolved_input span = JS.Bool b ->
                   input (extractSpanIO span) = JS.Bool b)
     /\ (forall n, resolved_output span = JS.Number n ->
                   output (extractSpanIO span) = JS.Number n)
     /\ (forall b, resolved_output span = JS.Bool b ->
                   output (extractSpanIO span) = JS.Bool b)
     /\ (structured (resolved_input span) = false ->
         input (extractSpanIO span) = resolved_input span)
     /\ (structured (resolved_output span) = false ->
         output (extractSpanIO span) = resolved_output span))
  /\ (let r := extractSpanIO
                 (createSpan "llm.call"
                    (<["input.value" := JS.Number (JS.Num 42)]>
                       {[ "output.value" := JS.Bool true ]})) in
      input r = JS.Number (JS.Num 42) /\ output r = JS.Bool true).
Proof.
  split; [|vm_compute; repeat split].
  intros span.
  split; [|split; [|split; [|split; [|split]]]].
  - intros x Hx. rewrite extract_input, Hx. reflexivity.
  - intros x Hx. rewrite extract_input, Hx. reflexivity.
  - intros x Hx. rewrite extract_output, Hx. reflexivity.
  - intros x Hx. rewrite extract_output, Hx. reflexivity.
  - intros Hs. rewrite extract_input.
    destruct (resolved_input span); try discriminate; reflexivity.
  - intros Hs. rewrite extract_output.
    destruct (resolved_output span); try discriminate; reflexivity.
Qed.

Lemma truthy_scalars_unchanged_witness :
  let s := createSpan "tool.execute"
             (<["tool.parameters" := JS.Number (JS.Num 7)]>
                {[ "tool.result" := JS.Bool true ]}) in
  let s' := createSpan "random-span"
              (<["input" := JS.Bool true]> {[ "output" := JS.Number (JS.Num (-1)) ]}) in
  input (extractSpanIO s) = JS.Number (JS.Num 7)
  /\ output (extractSpanIO s) = JS.Bool true
  /\ input (extractSpanIO s') = JS.Bool true
  /\ output (extractSpanIO s') = JS.Number (JS.Num (-1))
  /\ input (extractSpanIO s) = resolved_input s
  /\ output (extractSpanIO s) = resolved_output s.
Proof.
  intros s s'.
  destruct (proj1 truthy_scalars_unchanged s) as (Hn & _ & _ & Hb & Hi & Ho).
  destruct (proj1 truthy_scalars_unchanged s') as (_ & Hb' & Hn' & _).
  split; [apply Hn; reflexivity|].
  split; [apply Hb; reflexivity|].
  split; [apply Hb'; reflexivity|].
  split; [apply Hn'; reflexivity|].
  split; [apply Hi; reflexivity|apply Ho; reflexivity].
Defined.

(* ===================================================================== *)
(** ** Further properties of extractSpanIO                                *)
(* ===================================================================== *)

Lemma wrap_head (c : ascii) (open' close gap stepback indent : string)
    (partial : list string) :
  exists t, JS.wrap (String c open') close gap stepback indent partial = String c t.
Proof.
  unfold JS.wrap. destruct partial as [|p ps]; [|destruct (String.eqb gap "")];
    cbn [String.append]; eexists; reflexivity.
Qed.

(** The JSON text of an object or an array is not empty. *)
Lemma to_text_truthy (v : JS.value) : JS.truthy (to_text v) = JS.truthy v.
Proof.
  destruct v as [| |b|n|s|elems|props]; try reflexivity;
    unfold to_text, JS.JSON_stringify; cbn [JS.serialize].
  - destruct (wrap_head "[" "" "]" (JS.spaces (Nat.min 10 2)) ""
                ("" +:+ JS.spaces (Nat.min 10 2))
                (List.map (fun e => match JS.serialize (JS.spaces (Nat.min 10 2))
                                            ("" +:+ JS.spaces (Nat.min 10 2)) e with
                                    | Some t => t
                                    | None => "null"
                                    end) elems)) as [t ->].
    reflexivity.
  - match goal with
    | |- context [JS.wrap "{" "}" ?g ?sb ?i ?p] =>
      destruct (wrap_head "{" "" "}" g sb i p) as [t ->]
    end.
    reflexivity.
Qed.

Lemma to_text_unstructured (v : JS.value) : structured (to_text v) = false.
Proof. destruct v; reflexivity. Qed.

Lemma to_text_null (v : JS.value) : to_text v = JS.Null -> v = JS.Null.
Proof. destruct v; intros H; try reflexivity; discriminate H. Qed.

Lemma first_value_null_or_truthy (a : gmap string JS.value) (ks : list string) :
  first_value JS.truthy a ks = JS.Null
  \/ JS.truthy (first_value JS.truthy a ks) = true.
Proof.
  destruct (JS.truthy (first_value JS.truthy a ks)) eqn:Ht; [now right|].
  left. now apply first_value_truthy_or_null.
Qed.

Lemma io_table (span : Span) :
  input (extractSpanIO span)
  = to_text (first_value JS.truthy (attrs_of span)
               (input_keys (category (extractSpanIO span)) ++ generic_input_keys))
  /\ output (extractSpanIO span)
     = to_text (first_value JS.truthy (attrs_of span)
                  (output_keys (category (extractSpanIO span)) ++ generic_output_keys)).
Proof.
  split.
  - rewrite extract_input, resolved_input_table. reflexivity.
  - rewrite extract_output, resolved_output_table. reflexivity.
Qed.

(** X1: in every category, tool and agent spans included, the input is
    the first truthy value along the keys of the category followed by
    the generic keys, as text when it is an object or an array; and the
    output likewise. *)
Theorem extract_io_table (span : Span) :
  input (extractSpanIO span)
  = to_text (first_value JS.truthy (attrs_of span)
               (input_keys (category (extractSpanIO span)) ++ generic_input_keys))
  /\ output (extractSpanIO span)
     = to_text (first_value JS.truthy (attrs_of span)
                  (output_keys (category (extractSpanIO span)) ++ generic_output_keys)).
Proof.
  split.
  - rewrite extract_input, resolved_input_table. reflexivity.
  - rewrite extract_output, resolved_output_table. reflexivity.
Qed.

Lemma io_null_or_truthy (span : Span) :
  (input (extractSpanIO span) = JS.Null
   \/ (JS.truthy (input (extractSpanIO span)) = true
       /\ structured (input (extractSpanIO span)) = false))
  /\ (output (extractSpanIO span) = JS.Null
      \/ (JS.truthy (output (extractSpanIO span)) = true
          /\ structured (output (extractSpanIO span)) = false)).
Proof.
  destruct (io_table span) as [-> ->]. split.
  - match goal with |- context [first_value JS.truthy ?a ?ks] =>
      destruct (first_value_null_or_truthy a ks) as [->|H] end;
      [now left|right].
    rewrite to_text_truthy, to_text_unstructured. now split.
  - match goal with |- context [first_value JS.truthy ?a ?ks] =>
      destruct (first_value_null_or_truthy a ks) as [->|H] end;
      [now left|right].
    rewrite to_text_truthy, to_text_unstructured. now split.
Qed.

(** X2: the input of a result is [null] or a truthy value that is
    neither an object nor an array: never [undefined], an empty string,
    [0] or [false]; and the same for the output. *)
Theorem extract_io_null_or_truthy (span : Span) :
  (input (extractSpanIO span) = JS.Null
   \/ (JS.truthy (input (extractSpanIO span)) = true
       /\ structured (input (extractSpanIO span)) = false))
  /\ (output (extractSpanIO span) = JS.Null
      \/ (JS.truthy (output (extractSpanIO span)) = true
          /\ structured (output (extractSpanIO span)) = false)).
Proof.
  destruct (io_table span) as [-> ->]. split.
  - match goal with |- context [first_value JS.truthy ?a ?ks] =>
      destruct (first_value_null_or_truthy a ks) as [->|H] end;
      [now left|right].
    rewrite to_text_truthy, to_text_unstructured. now split.
  - match goal with |- context [first_value JS.truthy ?a ?ks] =>
      destruct (first_value_null_or_truthy a ks) as [->|H] end;
      [now left|right].
    rewrite to_text_truthy, to_text_unstructured. now split.
Qed.

(** X3: a truthy [gen_ai.tool.name] is the tool name of the result and
    keeps the span out of the category [other]; a truthy
    [gen_ai.system] gives the result a model and makes the span an
    [agent] or an [llm] span. *)
Theorem tool_and_system_attributes (span : Span) :
  (JS.truthy (JS.get (attrs_of span) "gen_ai.tool.name") = true ->
   toolName (extractSpanIO span) = JS.get (attrs_of span) "gen_ai.tool.name"
   /\ category (extractSpanIO span) <> other)
  /\ (JS.truthy (JS.get (attrs_of span) "gen_ai.system") = true ->
      JS.truthy (modelId (extractSpanIO span)) = true
      /\ (category (extractSpanIO span) = agent \/ category (extractSpanIO span) = llm)).
Proof.
  split; intros H.
  - split.
    + rewrite extract_toolName. unfold JS.or. now rewrite H.
    + rewrite extract_category. unfold determine_category. rewrite H.
      rewrite !orb_true_r.
      repeat match goal with |- context [if ?b then _ else _] => destruct b end;
        discriminate.
  - split.
    + rewrite extract_modelId. unfold JS.or.
      repeat match goal with |- context [if ?b then _ else _] => destruct b eqn:? end;
        congruence.
    + rewrite extract_category. unfold determine_category. rewrite H.
      rewrite !orb_true_r.
      match goal with |- context [if ?b then _ else _] => destruct b end; auto.
Qed.

Lemma tool_and_system_attributes_witness :
  let s := createSpan "some-span"
             (<["gen_ai.tool.name" := JS.Str "search"]>
                {[ "gen_ai.system" := JS.Str "openai" ]}) in
  toolName (extractSpanIO s) = JS.Str "search"
  /\ JS.truthy (modelId (extractSpanIO s)) = true.
Proof.
  intros s. destruct (tool_and_system_attributes s) as [Ht Hs]. split.
  - apply Ht. reflexivity.
  - apply Hs. reflexivity.
Defined.

(** *** Names *)

Lemma append_cons (c : ascii) (s t : string) :
  String c s +:+ t = String c (s +:+ t).
Proof. reflexivity. Qed.

Lemma toLowerCase_app (s t : string) :
  JS.toLowerCase (s +:+ t) = JS.toLowerCase s +:+ JS.toLowerCase t.
Proof.
  induction s as [|c s IH]; [reflexivity|].
  rewrite append_cons. cbn [JS.toLowerCase]. rewrite append_cons. f_equal. exact IH.
Qed.

Lemma lower_char_idem (c : ascii) : JS.lower_char (JS.lower_char c) = JS.lower_char c.
Proof.
  destruct c as [[] [] [] [] [] [] [] []]; reflexivity.
Qed.

Lemma toLowerCase_idem (s : string) :
  JS.toLowerCase (JS.toLowerCase s) = JS.toLowerCase s.
Proof.
  induction s as [|c s IH]; simpl; [reflexivity|]. f_equal; [apply lower_char_idem|exact IH].
Qed.

Lemma prefix_app (sub post : string) : String.prefix sub (sub +:+ post) = true.
Proof.
  induction sub as [|c sub IH].
  - now destruct post.
  - rewrite append_cons. cbn [String.prefix].
    destruct (ascii_dec c c) as [_|Hne]; [exact IH|congruence].
Qed.

Lemma prefix_split (sub s : string) :
  String.prefix sub s = true -> exists post, s = sub +:+ post.
Proof.
  revert s. induction sub as [|c sub IH]; intros s H.
  - exists s. reflexivity.
  - destruct s as [|d s]; cbn in H; [discriminate|].
    destruct (ascii_dec c d) as [->|]; [|discriminate].
    destruct (IH s H) as [post ->]. exists post. now rewrite append_cons.
Qed.

Lemma includes_unfold (s sub : string) :
  JS.includes s sub
  = (String.prefix sub s
     || match s with
        | EmptyString => false
        | String _ s' => JS.includes s' sub
        end)%bool.
Proof. destruct s; reflexivity. Qed.

(** [includes] finds exactly the substrings. *)
Lemma includes_iff (s sub : string) :
  JS.includes s sub = true <-> exists pre post, s = pre +:+ sub +:+ post.
Proof.
  split.
  - induction s as [|c s IH]; rewrite includes_unfold; intros H;
      apply orb_true_iff in H; destruct H as [H|H].
    + destruct (prefix_split _ _ H) as [post ->]. exists "", post. reflexivity.
    + discriminate.
    + destruct (prefix_split _ _ H) as [post Hp]. exists "", post. exact Hp.
    + destruct (IH H) as (pre & post & ->). exists (String c pre), post.
      now rewrite append_cons.
  - intros (pre & post & ->). induction pre as [|c pre IH]; rewrite includes_unfold.
    + change ("" +:+ sub +:+ post) with (sub +:+ post). now rewrite prefix_app.
    + rewrite append_cons, IH. apply orb_true_r.
Qed.

(** X4: a span whose name contains [agent], in any mix of upper and lower
    case, is an [agent] span, whatever its attributes. *)
Theorem agent_in_name_any_case (span : Span) (pre frag post : string) :
  name span = pre +:+ frag +:+ post ->
  JS.toLowerCase frag = "agent" ->
  category (extractSpanIO span) = agent.
Proof.
  intros Hn Hf. rewrite extract_category. unfold determine_category.
  replace (JS.includes (JS.toLowerCase (name span)) "agent") with true; [reflexivity|].
  symmetry. apply includes_iff.
  exists (JS.toLowerCase pre), (JS.toLowerCase post).
  now rewrite Hn, !toLowerCase_app, Hf.
Qed.

Lemma agent_in_name_any_case_witness :
  category (extractSpanIO
              (createSpan "Bedrock.AGENT-tool" {[ "gen_ai.system" := JS.Str "aws" ]}))
  = agent.
Proof.
  apply (agent_in_name_any_case _ "Bedrock." "AGENT" "-tool"); reflexivity.
Defined.

(** X5: a span is in the category [other] exactly when its lower-cased
    name contains none of [agent], [llm], [bedrock], [converse], [tool]
    and none of [gen_ai.agent.name], [gen_ai.system],
    [gen_ai.tool.name] holds a truthy value. *)
Theorem category_other_iff (span : Span) :
  category (extractSpanIO span) = other <->
  Forall (fun frag => JS.includes (JS.toLowerCase (name span)) frag = false)
    ["agent"; "llm"; "bedrock"; "converse"; "tool"]
  /\ all_falsy (attrs_of span) ["gen_ai.agent.name"; "gen_ai.system"; "gen_ai.tool.name"].
Proof.
  rewrite extract_category. unfold determine_category, all_falsy.
  rewrite !Forall_cons, !Forall_nil.
  destruct (JS.includes _ "agent"), (JS.includes _ "llm"), (JS.includes _ "bedrock"),
    (JS.includes _ "converse"), (JS.includes _ "tool"),
    (JS.truthy (JS.get _ "gen_ai.agent.name")), (JS.truthy (JS.get _ "gen_ai.system")),
    (JS.truthy (JS.get _ "gen_ai.tool.name")); cbn; intuition congruence.
Qed.

(** *** Attributes the extractor does not read *)

Lemma get_insert_other (a : gmap string JS.value) (k k' : string) (v : JS.value) :
  k <> k' -> JS.get (<[k:=v]> a) k' = JS.get a k'.
Proof. intros H. unfold JS.get. now rewrite lookup_insert_ne. Qed.

Lemma first_value_ext (ok : JS.value -> bool) (a b : gmap string JS.value)
    (keys : list string) :
  Forall (fun k => JS.get a k = JS.get b k) keys ->
  first_value ok a keys = first_value ok b keys.
Proof.
  induction 1 as [|k keys Hk _ IH]; cbn [first_value]; [reflexivity|].
  now rewrite Hk, IH.
Qed.

Lemma documented_get_insert (a : gmap string JS.value) (k : string) (v : JS.value) :
  k ∉ documented_keys ->
  Forall (fun k' => JS.get (<[k:=v]> a) k' = JS.get a k') documented_keys.
Proof.
  intros Hk. apply Forall_forall. intros k' Hk'.
  apply get_insert_other. intros ->. contradiction.
Qed.

(** X6: an attribute under a key that the extractor does not read changes
    nothing: category, input, output, tool name and model are those of
    the span without it. *)
Theorem undocumented_attribute_ignored
    (span : Span) (a : gmap string JS.value) (k : string) (v : JS.value) :
  k ∉ documented_keys ->
  let r := extractSpanIO (with_attributes span a) in
  let r' := extractSpanIO (with_attributes span (<[k:=v]> a)) in
  category r' = category r
  /\ input r' = input r
  /\ output r' = output r
  /\ toolName r' = toolName r
  /\ modelId r' = modelId r.
Proof.
  intros Hk r r'.
  pose proof (documented_get_insert a k v Hk) as Hall.
  assert (Hget : forall k', k' ∈ documented_keys ->
                            JS.get (<[k:=v]> a) k' = JS.get a k').
  { now apply Forall_forall. }
  assert (Hc : category r' = category r).
  { unfold r, r'.
    rewrite !extract_category, !attrs_of_with_attributes, !name_with_attributes.
    unfold determine_category.
    rewrite !Hget by (apply (bool_decide_unpack _); vm_compute; exact I).
    reflexivity. }
  split; [exact Hc|]. unfold r, r' in *.
  split; [|split; [|split]].
  - destruct (io_table (with_attributes span (<[k:=v]> a))) as [-> _].
    destruct (io_table (with_attributes span a)) as [-> _].
    rewrite Hc, !attrs_of_with_attributes. f_equal.
    apply first_value_ext. apply Forall_forall. intros k' Hk'. apply Hget.
    destruct (candidate_keys_documented (category (extractSpanIO (with_attributes span a))))
      as [Hin _].
    rewrite Forall_forall in Hin. now apply Hin.
  - destruct (io_table (with_attributes span (<[k:=v]> a))) as [_ ->].
    destruct (io_table (with_attributes span a)) as [_ ->].
    rewrite Hc, !attrs_of_with_attributes. f_equal.
    apply first_value_ext. apply Forall_forall. intros k' Hk'. apply Hget.
    destruct (candidate_keys_documented (category (extractSpanIO (with_attributes span a))))
      as [_ Hout].
    rewrite Forall_forall in Hout. now apply Hout.
  - rewrite !extract_toolName, !attrs_of_with_attributes.
    rewrite !Hget by (apply (bool_decide_unpack _); vm_compute; exact I).
    reflexivity.
  - rewrite !extract_modelId, !attrs_of_with_attributes.
    rewrite !Hget by (apply (bool_decide_unpack _); vm_compute; exact I).
    reflexivity.
Qed.

Lemma undocumented_attribute_ignored_witness :
  let s := createSpan "llm.call" ∅ in
  let a : gmap string JS.value := {[ "gen_ai.prompt" := JS.Str "Hello" ]} in
  input (extractSpanIO (with_attributes s (<["http.method" := JS.Str "GET"]> a)))
  = input (extractSpanIO (with_attributes s a)).
Proof.
  intros s a.
  apply (undocumented_attribute_ignored s a "http.method" (JS.Str "GET")).
  apply (bool_decide_unpack _). vm_compute. exact I.
Defined.

(* ===================================================================== *)
(** ** The list of results: what is kept, and in which order             *)
(* ===================================================================== *)

Lemma truthy_not_null (v : JS.value) : JS.truthy v = true -> v <> JS.Null.
Proof. intros H ->. discriminate. Qed.

Lemma or_truthy_iff (i o : JS.value) :
  i = JS.Null \/ JS.truthy i = true ->
  o = JS.Null \/ JS.truthy o = true ->
  JS.truthy (i ||| o) = true <-> i <> JS.Null \/ o <> JS.Null.
Proof.
  intros [->|Hi] [->|Ho].
  - cbn. split; [discriminate|]. intros [H|H]; congruence.
  - rewrite or_falsy_l by reflexivity.
    split; [|now intros _]. intros _. right. now apply truthy_not_null.
  - rewrite or_truthy_l by exact Hi.
    split; [|now intros _]. intros _. left. now apply truthy_not_null.
  - rewrite or_truthy_l by exact Hi.
    split; [|now intros _]. intros _. left. now apply truthy_not_null.
Qed.

Lemma kept_iff (span : Span) :
  JS.truthy (input (extractSpanIO span) ||| output (extractSpanIO span)) = true
  <-> input (extractSpanIO span) <> JS.Null \/ output (extractSpanIO span) <> JS.Null.
Proof.
  destruct (io_null_or_truthy span) as [Hi Ho].
  apply or_truthy_iff; [destruct Hi as [?|[? _]]|destruct Ho as [?|[? _]]]; auto.
Qed.

Lemma with_input_or_output_In (spans : list Span) (r : SpanIOData) :
  In r (with_input_or_output spans)
  <-> exists s, In s spans /\ r = extractSpanIO s
                /\ (input r <> JS.Null \/ output r <> JS.Null).
Proof.
  unfold with_input_or_output. rewrite filter_In, in_map_iff. split.
  - intros [(s & <- & Hs) Hk]. exists s. split; [exact Hs|]. split; [reflexivity|].
    now apply kept_iff.
  - intros (s & Hs & -> & Hk). split; [now exists s|]. now apply kept_iff.
Qed.

(** X7: the list that the extraction, filtering and sorting produce holds
    exactly the results of the spans that have an input or an output
    other than [null]; it is never longer than the list of spans. *)
Theorem spanIOData_keeps_io (getTime : string -> JS.number) (spans : list Span)
    (l : list SpanIOData) :
  spanIOData getTime spans = Normal l ->
  (forall r, In r l
             <-> exists s, In s spans /\ r = extractSpanIO s
                           /\ (input r <> JS.Null \/ output r <> JS.Null))
  /\ length l <= length spans.
Proof.
  intros Hl.
  destruct (sort_total (byStartTime getTime) (fun x y => ex_intro _ _ eq_refl)
              (with_input_or_output spans)) as (l' & Hl' & Hp).
  assert (l' = l) as -> by (unfold spanIOData in Hl; fold (with_input_or_output spans) in Hl; congruence).
  split.
  - intros r. rewrite <- with_input_or_output_In. split; apply Permutation_in.
    + exact Hp.
    + now symmetry.
  - rewrite (Permutation_length Hp). unfold with_input_or_output.
    etransitivity; [apply filter_length_le|]. now rewrite length_map.
Qed.

Lemma spanIOData_keeps_io_witness :
  let s1 := createSpanAt "1" "llm.call" "2024-01-01T00:00:00Z"
              {[ "gen_ai.prompt" := JS.Str "input" ]} in
  let s2 := createSpanAt "2" "random" "2024-01-01T00:00:00Z" ∅ in
  let s3 := createSpanAt "3" "tool.exec" "2024-01-01T00:00:00Z"
              {[ "gen_ai.tool.output" := JS.Str "output" ]} in
  length [extractSpanIO s1; extractSpanIO s3] <= length [s1; s2; s3].
Proof.
  intros s1 s2 s3.
  apply (spanIOData_keeps_io Date_getTime [s1; s2; s3]). vm_compute. reflexivity.
Defined.

(** *** The engine's sort against insertion sort on the start times *)

Section SortByKey.

Context {A : Type} (key : A -> JS.number).

Abbreviation comparefn := (fun x y : A => mret (JS.sub (key x) (key y)) : completion JS.number).
Abbreviation ms := (fun x : A => number_Z (key x)).
Abbreviation parses := (fun x : A => is_number (key x) = true).

Lemma sort_compare_parsed (x y : A) :
  parses x -> parses y ->
  JS.sort_compare comparefn x y = Normal (ms x - ms y)%Z.
Proof.
  cbn beta. intros Hx Hy. unfold JS.sort_compare. cbn.
  destruct (key x); [discriminate|]. destruct (key y); [discriminate|]. reflexivity.
Qed.

Lemma Forall_insert_by (P : A -> Prop) (x : A) (l : list A) :
  Forall P (insert_by ms x l) <-> P x /\ Forall P l.
Proof.
  induction l as [|y l IH]; cbn [insert_by].
  - rewrite !Forall_cons, Forall_nil. tauto.
  - destruct (ms y <? ms x)%Z.
    + rewrite !Forall_cons, IH. tauto.
    + rewrite !Forall_cons. tauto.
Qed.

Lemma Forall_sort_by (P : A -> Prop) (l : list A) :
  Forall P (sort_by ms l) <-> Forall P l.
Proof.
  induction l as [|x l IH]; cbn [sort_by]; [reflexivity|].
  rewrite Forall_insert_by, Forall_cons, IH. reflexivity.
Qed.

Lemma sort_insert_insert_by (x : A) (l : list A) :
  parses x -> Forall parses l ->
  JS.sort_insert comparefn x l = Normal (insert_by ms x l).
Proof.
  intros Hx Hl. induction Hl as [|y l Hy Hl IH]; cbn [JS.sort_insert insert_by].
  - reflexivity.
  - rewrite (sort_compare_parsed x y Hx Hy). cbn.
    replace (0 <? ms x - ms y)%Z with (ms y <? ms x)%Z
      by (destruct (Z.ltb_spec (ms y) (ms x)), (Z.ltb_spec 0 (ms x - ms y)); lia).
    destruct (ms y <? ms x)%Z; [|reflexivity].
    rewrite IH. reflexivity.
Qed.

Lemma sort_sort_by (l : list A) :
  Forall parses l -> JS.sort comparefn l = Normal (sort_by ms l).
Proof.
  intros Hl. induction Hl as [|x l Hx Hl IH]; cbn [JS.sort sort_by]; [reflexivity|].
  rewrite IH. cbn. apply sort_insert_insert_by; [exact Hx|].
  now apply Forall_sort_by.
Qed.

Lemma insert_by_sorted (x : A) (l : list A) :
  StronglySorted (fun a b => (ms a <= ms b)%Z) l ->
  StronglySorted (fun a b => (ms a <= ms b)%Z) (insert_by ms x l).
Proof.
  induction 1 as [|y l Hs IH Hy]; cbn [insert_by].
  - constructor; constructor.
  - destruct (Z.ltb_spec (ms y) (ms x)) as [Hlt|Hge].
    + constructor; [exact IH|]. apply Forall_insert_by. split; [lia|exact Hy].
    + constructor; [now constructor|]. constructor; [exact Hge|].
      eapply Forall_impl; [exact Hy|]. intros z Hz. cbn in *. lia.
Qed.

Lemma sort_by_sorted (l : list A) :
  StronglySorted (fun a b => (ms a <= ms b)%Z) (sort_by ms l).
Proof.
  induction l as [|x l IH]; cbn [sort_by]; [constructor|].
  now apply insert_by_sorted.
Qed.

Lemma insert_by_filter (t : Z) (x : A) (l : list A) :
  List.filter (fun e => (ms e =? t)%Z) (insert_by ms x l)
  = List.filter (fun e => (ms e =? t)%Z) (x :: l).
Proof.
  induction l as [|y l IH]; cbn [insert_by]; [reflexivity|].
  destruct (Z.ltb_spec (ms y) (ms x)) as [Hlt|Hge]; [|reflexivity].
  cbn [List.filter] in *. rewrite IH.
  destruct (Z.eqb_spec (ms x) t), (Z.eqb_spec (ms y) t); try reflexivity; lia.
Qed.

Lemma sort_by_filter (t : Z) (l : list A) :
  List.filter (fun e => (ms e =? t)%Z) (sort_by ms l)
  = List.filter (fun e => (ms e =? t)%Z) l.
Proof.
  induction l as [|x l IH]; cbn [sort_by]; [reflexivity|].
  rewrite insert_by_filter. cbn [List.filter]. now rewrite IH.
Qed.

End SortByKey.

Lemma with_input_or_output_parse (getTime : string -> JS.number) (spans : list Span) :
  start_times_parse getTime spans ->
  Forall (fun d => is_number (getTime (startTime (span d))) = true)
    (with_input_or_output spans).
Proof.
  unfold start_times_parse, with_input_or_output. rewrite !Forall_forall.
  intros H d Hd. apply list_elem_of_In in Hd. apply filter_In in Hd as [Hd _].
  apply in_map_iff in Hd as (s & <- & Hs). apply H. now apply list_elem_of_In.
Qed.

Lemma spanIOData_sort_by (getTime : string -> JS.number) (spans : list Span) :
  start_times_parse getTime spans ->
  spanIOData getTime spans
  = Normal (sort_by (start_ms getTime) (with_input_or_output spans)).
Proof.
  intros H. apply with_input_or_output_parse in H.
  exact (sort_sort_by (fun d => getTime (startTime (span d))) _ H).
Qed.

(** X8: when every start time parses, the list comes out in ascending
    order of start time. *)
Theorem spanIOData_sorted (getTime : string -> JS.number) (spans : list Span) :
  start_times_parse getTime spans ->
  exists l, spanIOData getTime spans = Normal l
            /\ StronglySorted
                 (fun a b => (start_ms getTime a <= start_ms getTime b)%Z) l.
Proof.
  intros H. eexists. split; [now apply spanIOData_sort_by|].
  exact (sort_by_sorted (fun d => getTime (startTime (span d))) _).
Qed.

(** X9: when every start time parses, the sort is stable: the results that
    start at one and the same instant keep the order the spans came
    in. *)
Theorem spanIOData_stable (getTime : string -> JS.number) (spans : list Span) :
  start_times_parse getTime spans ->
  exists l, spanIOData getTime spans = Normal l
            /\ forall t, starting_at getTime t l
                         = starting_at getTime t (with_input_or_output spans).
Proof.
  intros H. eexists. split; [now apply spanIOData_sort_by|].
  intros t. exact (sort_by_filter (fun d => getTime (startTime (span d))) t _).
Qed.

Lemma spanIOData_sorted_witness :
  exists l,
    spanIOData Date_getTime
      [ createSpanAt "3" "llm.call" "2024-01-01T00:00:03Z" {[ "gen_ai.prompt" := JS.Str "c" ]};
        createSpanAt "1" "llm.call" "2024-01-01T00:00:01Z" {[ "gen_ai.prompt" := JS.Str "a" ]};
        createSpanAt "2" "llm.call" "2024-01-01T00:00:02Z" {[ "gen_ai.prompt" := JS.Str "b" ]} ]
    = Normal l
    /\ StronglySorted
         (fun a b => (start_ms Date_getTime a <= start_ms Date_getTime b)%Z) l.
Proof. apply spanIOData_sorted. repeat constructor. Defined.

Lemma spanIOData_stable_witness :
  exists l,
    spanIOData Date_getTime
      [ createSpanAt "3" "llm.call" "2024-01-01T00:00:02Z" {[ "gen_ai.prompt" := JS.Str "c" ]};
        createSpanAt "1" "llm.call" "2024-01-01T00:00:01Z" {[ "gen_ai.prompt" := JS.Str "a" ]};
        createSpanAt "2" "llm.call" "2024-01-01T00:00:02Z" {[ "gen_ai.prompt" := JS.Str "b" ]} ]
    = Normal l
    /\ forall t,
         starting_at Date_getTime t l
         = starting_at Date_getTime t
             (with_input_or_output
                [ createSpanAt "3" "llm.call" "2024-01-01T00:00:02Z"
                    {[ "gen_ai.prompt" := JS.Str "c" ]};
                  createSpanAt "1" "llm.call" "2024-01-01T00:00:01Z"
                    {[ "gen_ai.prompt" := JS.Str "a" ]};
                  createSpanAt "2" "llm.call" "2024-01-01T00:00:02Z"
                    {[ "gen_ai.prompt" := JS.Str "b" ]} ]).
Proof. apply spanIOData_stable. repeat constructor. Defined.

(* ===================================================================== *)
(** ** Statistics                                                         *)
(* ===================================================================== *)

Lemma count_category_cons (c x : Category) (l : list Category) :
  count_category c (x :: l)
  = (if bool_decide (x = c) then 1 else 0) + count_category c l.
Proof. unfold count_category. cbn [List.filter]. now destruct (bool_decide (x = c)). Qed.

Lemma count_category_total (l : list Category) :
  count_category agent l + count_category llm l
  + count_category tool l + count_category other l = length l.
Proof.
  induction l as [|x l IH]; [reflexivity|].
  rewrite !count_category_cons. cbn [length].
  destruct x; repeat case_bool_decide; first [congruence | lia].
Qed.

(** Counting with [acc[c]++] from any start adds, to each counter, the
    number of entries of its category. *)
Lemma tally_counts {A} (f : A -> Category) (l : list A) (acc : Counts.t) :
  let r := fold_left (fun acc x => increment acc (f x)) l acc in
  Counts.agent r = Counts.agent acc + count_category agent (List.map f l)
  /\ Counts.llm r = Counts.llm acc + count_category llm (List.map f l)
  /\ Counts.tool r = Counts.tool acc + count_category tool (List.map f l)
  /\ Counts.other r = Counts.other acc + count_category other (List.map f l).
Proof.
  revert acc. induction l as [|x l IH]; intros acc; cbn [fold_left List.map].
  - unfold count_category. cbn. lia.
  - specialize (IH (increment acc (f x))). cbn zeta in *.
    rewrite !count_category_cons.
    destruct IH as (-> & -> & -> & ->).
    destruct (f x); cbn [increment Counts.agent Counts.llm Counts.tool Counts.other];
      repeat case_bool_decide; first [congruence | lia].
Qed.

(** X10: [categoryCounts] counts each result once, under its category: each
    counter is the number of results of that category, and the four
    counters add up to the number of results. *)
Theorem categoryCounts_counts (datas : list SpanIOData) :
  Counts.agent (categoryCounts datas) = count_category agent (List.map category datas)
  /\ Counts.llm (categoryCounts datas) = count_category llm (List.map category datas)
  /\ Counts.tool (categoryCounts datas) = count_category tool (List.map category datas)
  /\ Counts.other (categoryCounts datas) = count_category other (List.map category datas)
  /\ total (categoryCounts datas) = length datas.
Proof.
  destruct (tally_counts category datas no_counts) as (Ha & Hl & Ht & Ho).
  unfold categoryCounts, total. cbn zeta in *. rewrite Ha, Hl, Ht, Ho. cbn.
  repeat split; try reflexivity.
  rewrite count_category_total. apply length_map.
Qed.

(** X11: [spanStats.byCategory] counts each span of the trace once: the four
    counters add up to the number of spans, and each is the number of
    spans the flyout puts in that category. *)
Theorem byCategory_counts (spans : list Span) :
  Counts.agent (byCategory spans)
  = count_category agent (List.map byCategory_category spans)
  /\ Counts.llm (byCategory spans)
     = count_category llm (List.map byCategory_category spans)
  /\ Counts.tool (byCategory spans)
     = count_category tool (List.map byCategory_category spans)
  /\ Counts.other (byCategory spans)
     = count_category other (List.map byCategory_category spans)
  /\ total (byCategory spans) = length spans.
Proof.
  destruct (tally_counts byCategory_category spans no_counts) as (Ha & Hl & Ht & Ho).
  unfold byCategory, total. cbn zeta in *. rewrite Ha, Hl, Ht, Ho. cbn.
  repeat split; try reflexivity.
  rewrite count_category_total. apply length_map.
Qed.

Lemma count_status_cons (st : Status) (s : Span) (spans : list Span) :
  count_status st (s :: spans)
  = (if bool_decide (status s = st) then 1 else 0) + count_status st spans.
Proof. unfold count_status. cbn [List.filter]. now destruct (bool_decide _). Qed.

Lemma byStatus_from (spans : list Span) (acc : StatusCounts.t) :
  let r := fold_left byStatus_step spans acc in
  StatusCounts.ok r = StatusCounts.ok acc + count_status OK spans
  /\ StatusCounts.error r = StatusCounts.error acc + count_status ERROR spans
  /\ StatusCounts.unset r = StatusCounts.unset acc + count_status UNSET spans.
Proof.
  cbn zeta. revert acc. induction spans as [|s spans IH]; intros acc; cbn [fold_left].
  - unfold count_status. cbn. lia.
  - destruct (IH (byStatus_step acc s)) as (-> & -> & ->).
    rewrite !count_status_cons. unfold byStatus_step.
    destruct (status s);
      cbn [StatusCounts.ok StatusCounts.error StatusCounts.unset];
      repeat case_bool_decide; first [congruence | lia].
Qed.

Lemma count_status_total (spans : list Span) :
  count_status OK spans + count_status ERROR spans + count_status UNSET spans
  = length spans.
Proof.
  induction spans as [|s spans IH]; [reflexivity|].
  rewrite !count_status_cons. cbn [length].
  destruct (status s); repeat case_bool_decide; first [congruence | lia].
Qed.

(** X12: [spanStats.byStatus] counts each span of the trace once, under its
    status: [ok], [error] and [unset] are the numbers of spans with the
    status [OK], [ERROR] and [UNSET], and add up to the number of
    spans. *)
Theorem byStatus_counts (spans : list Span) :
  StatusCounts.ok (byStatus spans) = count_status OK spans
  /\ StatusCounts.error (byStatus spans) = count_status ERROR spans
  /\ StatusCounts.unset (byStatus spans) = count_status UNSET spans
  /\ StatusCounts.ok (byStatus spans) + StatusCounts.error (byStatus spans)
     + StatusCounts.unset (byStatus spans) = length spans.
Proof.
  destruct (byStatus_from spans
              {| StatusCounts.ok := 0; StatusCounts.error := 0; StatusCounts.unset := 0 |})
    as (Ho & He & Hu).
  cbn zeta in *. unfold byStatus. rewrite Ho, He, Hu. cbn.
  repeat split; try reflexivity. apply count_status_total.
Qed.

Lemma flyout_tool_attribute (span : Span) :
  from_option (fun a => JS.get a "gen_ai.tool.name") JS.Undefined (attributes span)
  = JS.get (attrs_of span) "gen_ai.tool.name".
Proof. unfold attrs_of. destruct (attributes span); reflexivity. Qed.

(** X13: on a span without a mark of an agent or of a model system the
    flyout and the extractor give the same category; on a trace of
    such spans the statistics of the flyout are the counts of the
    extracted categories. *)
Theorem classifiers_agree :
  (forall span : Span,
     no_agent_or_system_mark span ->
     byCategory_category span = category (extractSpanIO span))
  /\ (forall spans : list Span,
        Forall no_agent_or_system_mark spans ->
        byCategory spans = categoryCounts (List.map extractSpanIO spans)).
Proof.
  assert (H1 : forall span : Span,
             no_agent_or_system_mark span ->
             byCategory_category span = category (extractSpanIO span)).
  { intros span (Hn & Hf). unfold all_falsy in Hf.
    rewrite !Forall_cons in Hf. destruct Hf as (Ha & Hs & _).
    rewrite extract_category. unfold byCategory_category, determine_category.
    rewrite flyout_tool_attribute, Hn, Ha, Hs, !orb_false_r. cbn [orb].
    reflexivity. }
  split; [exact H1|].
  intros spans H. unfold byCategory, categoryCounts.
  generalize no_counts. induction H as [|s spans Hs _ IH]; intros acc; [reflexivity|].
  cbn [List.map fold_left]. rewrite (H1 s Hs). apply IH.
Qed.

Lemma classifiers_agree_witness :
  let spans := [ createSpan "llm.call" {[ "gen_ai.prompt" := JS.Str "b" ]};
                 createSpan "tool.exec" {[ "gen_ai.tool.name" := JS.Str "t1" ]};
                 createSpan "http.get" ∅ ] in
  byCategory spans = categoryCounts (List.map extractSpanIO spans).
Proof.
  intros spans. apply (proj2 classifiers_agree).
  repeat constructor.
Defined.

(* ===================================================================== *)
(** ** Expanding and collapsing spans                                     *)
(* ===================================================================== *)

Lemma toggle_elem_of (spanId : string) (prev : gset string) :
  (spanId ∈ handleToggleExpand spanId prev <-> spanId ∉ prev)
  /\ (forall other : string,
        other <> spanId ->
        (other ∈ handleToggleExpand spanId prev <-> other ∈ prev)).
Proof.
  unfold handleToggleExpand. destruct (decide (spanId ∈ prev)) as [Hin|Hout].
  - split.
    + rewrite elem_of_difference, elem_of_singleton. tauto.
    + intros other Hne. rewrite elem_of_difference, elem_of_singleton. tauto.
  - split.
    + rewrite elem_of_union, elem_of_singleton. tauto.
    + intros other Hne. rewrite elem_of_union, elem_of_singleton. tauto.
Qed.

(** X14: toggling a span id flips whether that id is expanded, and
    leaves every other id as it was. *)
Theorem handleToggleExpand_flips (spanId : string) (prev : gset string) :
  (spanId ∈ handleToggleExpand spanId prev <-> spanId ∉ prev)
  /\ (forall other : string,
        other <> spanId ->
        (other ∈ handleToggleExpand spanId prev <-> other ∈ prev)).
Proof.
  unfold handleToggleExpand. destruct (decide (spanId ∈ prev)) as [Hin|Hout].
  - split.
    + rewrite elem_of_difference, elem_of_singleton. tauto.
    + intros other Hne. rewrite elem_of_difference, elem_of_singleton. tauto.
  - split.
    + rewrite elem_of_union, elem_of_singleton. tauto.
    + intros other Hne. rewrite elem_of_union, elem_of_singleton. tauto.
Qed.

Lemma handleToggleExpand_flips_witness :
  let prev : gset string := {[ "root" ]} in
  "child" ∈ handleToggleExpand "root" ({[ "child" ]} ∪ prev).
Proof.
  intros prev.
  apply (proj2 (handleToggleExpand_flips "root" ({[ "child" ]} ∪ prev)) "child").
  - discriminate.
  - apply (bool_decide_unpack _). vm_compute. exact I.
Defined.

(** X15: toggling the same span id twice gives back the set of expanded
    spans one started from. *)
Theorem handleToggleExpand_twice (spanId : string) (prev : gset string) :
  handleToggleExpand spanId (handleToggleExpand spanId prev) = prev.
Proof.
  apply set_eq. intros x.
  destruct (toggle_elem_of spanId (handleToggleExpand spanId prev)) as [H1 H1'].
  destruct (toggle_elem_of spanId prev) as [H2 H2'].
  destruct (decide (x = spanId)) as [->|Hne].
  - rewrite H1, H2. destruct (decide (spanId ∈ prev)); tauto.
  - rewrite (H1' x Hne). apply (H2' x Hne).
Qed.

(* ===================================================================== *)
(** ** The histogram                                                      *)
(* ===================================================================== *)

(** X16: the scale of the bars is at least one, so the division by it is
    safe, and no bucket counts more than the scale; the scale is [1] or
    the count of a bucket. *)
Theorem maxCount_bounds (data : list HistogramBucket.t) :
  (1 <= maxCount data)%Z
  /\ Forall (fun b => (HistogramBucket.count b <= maxCount data)%Z) data
  /\ (maxCount data = 1%Z
      \/ exists b, In b data /\ HistogramBucket.count b = maxCount data).
Proof.
  unfold maxCount. induction data as [|b data (H1 & Hall & Hex)]; cbn [List.map foldr].
  - split; [lia|]. split; [constructor|now left].
  - split; [lia|]. split.
    + constructor; [lia|]. eapply Forall_impl; [exact Hall|]. intros x Hx. cbn in *. lia.
    + destruct (Z.max_spec (HistogramBucket.count b)
                  (foldr Z.max 1%Z (List.map HistogramBucket.count data)))
        as [[_ ->]|[_ ->]].
      * destruct Hex as [->|(b' & Hb' & <-)]; [now left|].
        right. exists b'. split; [now right|reflexivity].
      * right. exists b. split; [now left|reflexivity].
Qed.

(** X17: the first six bars get six different colours, every further bar is
    grey, and no bar is left without a colour. *)
Theorem getBarColor_palette :
  (forall i j : nat, i < 6 -> j < 6 -> getBarColor i = getBarColor j -> i = j)
  /\ (forall i : nat, 6 <= i -> getBarColor i = "bg-gray-400")
  /\ (forall i : nat, i < 6 -> getBarColor i <> "bg-gray-400")
  /\ (forall i : nat, getBarColor i <> "").
Proof.
  split; [|split; [|split]].
  - intros i j Hi Hj.
    do 6 (destruct i as [|i]; [do 6 (destruct j as [|j]; [cbv; congruence|]); lia|]).
    lia.
  - intros i Hi. unfold getBarColor.
    do 6 (destruct i as [|i]; [lia|]). reflexivity.
  - intros i Hi. do 6 (destruct i as [|i]; [cbv; congruence|]). lia.
  - intros i. do 6 (destruct i as [|i]; [cbv; congruence|]). cbv. congruence.
Qed.

Lemma getBarColor_palette_witness :
  getBarColor 7 = "bg-gray-400" /\ getBarColor 2 <> "bg-gray-400".
Proof.
  destruct getBarColor_palette as (_ & Hgrey & Hcol & _).
  split; [apply Hgrey|apply Hcol]; lia.
Defined.

(* ===================================================================== *)
(** ** The version                                                        *)
(* ===================================================================== *)

Lemma getVersion_first (package_json : completion JS.value) :
  exists r, getVersion package_json JS.Null = (r, r) /\ JS.truthy r = true.
Proof.
  unfold getVersion. cbn [is_null negb].
  destruct package_json as [pj|e]; cbn; [|eexists; split; reflexivity].
  destruct (get_property pj "version") as [v|e]; cbn; [|eexists; split; reflexivity].
  eexists. split; [reflexivity|].
  unfold JS.or. destruct (JS.truthy v) eqn:Hv; [exact Hv|reflexivity].
Qed.

(** X18: the first call leaves its result in the cache, and the result is
    truthy: a version is never [null], [undefined] or empty.  Every
    later call returns that result and leaves the cache alone, whatever
    has become of [package.json] in the meantime. *)
Theorem getVersion_cached (first later : completion JS.value) :
  exists r,
    getVersion first JS.Null = (r, r)
    /\ JS.truthy r = true
    /\ getVersion later r = (r, r).
Proof.
  destruct (getVersion_first first) as (r & Hr & Ht).
  exists r. split; [exact Hr|]. split; [exact Ht|].
  unfold getVersion. destruct r; try discriminate; reflexivity.
Qed.

(** X19: on a first call the version is the [version] of [package.json]
    when that holds a truthy value, and ["unknown"] in every other
    case: the file cannot be read or parsed, it holds no object, the
    object has no [version], or the [version] is falsy. *)
Theorem getVersion_unknown :
  (forall e, fst (getVersion (Throw e) JS.Null) = JS.Str "unknown")
  /\ (forall pj,
        structured pj = false \/ (exists elems, pj = JS.Array elems) ->
        fst (getVersion (Normal pj) JS.Null) = JS.Str "unknown")
  /\ (forall props v,
        get_property (JS.Object props) "version" = Normal v ->
        fst (getVersion (Normal (JS.Object props)) JS.Null)
        = if JS.truthy v then v else JS.Str "unknown").
Proof.
  split; [|split].
  - intros e. reflexivity.
  - intros pj [H|[elems ->]]; [|reflexivity].
    destruct pj; try discriminate; reflexivity.
  - intros props v H. unfold getVersion. cbn [is_null negb].
    cbn [mbind completion_bind]. rewrite H. reflexivity.
Qed.

Lemma getVersion_unknown_witness :
  fst (getVersion (Normal (JS.Number (JS.Num 3))) JS.Null) = JS.Str "unknown"
  /\ fst (getVersion
            (Normal (JS.Object [("name", JS.Str "agent-health"); ("version", JS.Str "0.1.0")]))
            JS.Null)
     = JS.Str "0.1.0".
Proof.
  destruct getVersion_unknown as (_ & Hother & Hobj). split.
  - apply Hother. left. reflexivity.
  - apply (Hobj _ (JS.Str "0.1.0")). reflexivity.
Defined.
